(** * jsonrpcbase: the transport-independent JSON-RPC service core

    A shallow embedding of [src/jsonrpcbase/main.py] (class
    [JSONRPCService] and the [JSONRPCError] hierarchy) together with the
    properties of its request normalizer, dispatcher, batch orchestrator
    and envelope builder.

    Conventions of the embedding:
    - decoded JSON values and the Python objects the service passes around
      are terms of [Value]; Python's [None] is [VNull];
    - a Python [dict] with string keys is a [gmap string _]; key order (not
      observable through lookups) is not modelled, so the list of method
      names in a [MethodNotFoundError] comes in the order of the map;
    - a Python call that may raise returns a [Result]; code that mutates an
      object or calls user handlers lives in the state-and-exception monad
      [ST];
    - [log.exception] calls only write to the log and are left out. *)

From Stdlib Require Import ZArith String Ascii.
From Stdlib Require Import Floats.SpecFloat.
From stdpp Require Import gmap strings list fin_maps pretty.

#[local] Set Warnings "-register-all".
#[local] Open Scope string_scope.
#[local] Open Scope list_scope.
#[local] Open Scope Z_scope.

(** ** Values *)

Inductive Value : Type :=
  | VNull
  | VBool (b : bool)
  | VInt (n : Z)
  | VFloat (f : spec_float)
  | VStr (s : string)
  | VList (l : list Value)
  | VDict (d : gmap string Value).

(** The type objects that [type(x)] can return on a decoded value. *)
Inductive PyType : Type :=
  | T_NoneType | T_bool | T_int | T_float | T_str | T_list | T_dict.

#[global] Instance PyType_eq_dec : EqDecision PyType.
Proof. solve_decision. Defined.

Definition py_type (v : Value) : PyType :=
  match v with
  | VNull => T_NoneType
  | VBool _ => T_bool
  | VInt _ => T_int
  | VFloat _ => T_float
  | VStr _ => T_str
  | VList _ => T_list
  | VDict _ => T_dict
  end.

(** What the tuples on the right of [type(x) in (...)] hold: type objects,
    or the object [None] itself (which is not the type of [None]). *)
Inductive PyObj : Type :=
  | O_type (t : PyType)
  | O_None.

(** [t in objs] for a type object [t]: a type object equals only itself. *)
Definition type_in (t : PyType) (objs : list PyObj) : bool :=
  existsb (λ o, match o with
                | O_type t' => bool_decide (t = t')
                | O_None => false
                end) objs.

(** Python truthiness, as used by [if x:] and [x and y]. *)
Definition truthy (v : Value) : bool :=
  match v with
  | VNull => false
  | VBool b => b
  | VInt n => negb (n =? 0)
  | VFloat (S754_zero _) => false
  | VFloat _ => true
  | VStr s => negb (String.eqb s "")
  | VList l => negb (Nat.eqb (length l) 0)
  | VDict d => negb (Nat.eqb (size d) 0)
  end.

Definition is_None (v : Value) : bool :=
  match v with VNull => true | _ => false end.

Definition isinstance_dict (v : Value) : bool :=
  match v with VDict _ => true | _ => false end.

Definition isinstance_list (v : Value) : bool :=
  match v with VList _ => true | _ => false end.

(** The double-quote character, for messages that contain it. *)
Definition dquote : string := String (ascii_of_nat 34) EmptyString.

(** ** The error taxonomy *)

Inductive ErrClass : Type :=
  | JSONRPCError
  | ParseError
  | InvalidRequestError
  | MethodNotFoundError
  | InternalError
  | ServerError.

#[global] Instance ErrClass_eq_dec : EqDecision ErrClass.
Proof. solve_decision. Defined.

Definition code (c : ErrClass) : Z :=
  match c with
  | JSONRPCError => 0
  | ParseError => -32700
  | InvalidRequestError => -32600
  | MethodNotFoundError => -32601
  | InternalError => -32603
  | ServerError => -32000
  end.

(** The class attribute [message]; [None] on the base class. *)
Definition message (c : ErrClass) : option string :=
  match c with
  | JSONRPCError => None
  | ParseError => Some "Parse error"
  | InvalidRequestError => Some "Invalid Request"
  | MethodNotFoundError => Some "Method not found"
  | InternalError => Some "Internal error"
  | ServerError => Some "Server error"
  end.

(** [str(self.message)] *)
Definition str_message (m : option string) : string :=
  match m with Some s => s | None => "None" end.

(** An instance of one of the [JSONRPCError] classes: its class and its
    [data] attribute ([VNull] when constructed without data). *)
Record RpcError : Type := MkRpcError {
  err_class : ErrClass;
  err_data : Value;
}.

(** [JSONRPCError.dumps] *)
Definition dumps (e : RpcError) : Value :=
  let error : gmap string Value :=
    <["message" := VStr (str_message (message (err_class e)))]>
      {["code" := VInt (code (err_class e))]} in
  let error :=
    if negb (is_None (err_data e)) then <["data" := err_data e]> error
    else error in
  VDict error.

(** The exceptions that travel through the service: the [JSONRPCError]
    classes, jsonschema's [ValidationError] (with its [message]), the
    [KeyError] of a failed subscript, and the [TypeError] of adding
    something that is not a string to a string. *)
Inductive Exc : Type :=
  | RpcExc (e : RpcError)
  | ValidationError (msg : string)
  | KeyError (key : string)
  | TypeError.

Definition InvalidRequest (data : Value) : Exc :=
  RpcExc (MkRpcError InvalidRequestError data).

(** [{'details': s}] *)
Definition details (s : string) : Value := VDict {["details" := VStr s]}.

(** ** Results and the state-and-exception monad *)

Inductive Result (A : Type) : Type :=
  | Return (a : A)
  | Raise (e : Exc).
Arguments Return {A} a.
Arguments Raise {A} e.

#[global] Instance Result_ret : MRet Result := λ A a, Return a.
#[global] Instance Result_bind : MBind Result := λ A B f r,
  match r with
  | Return a => f a
  | Raise e => Raise e
  end.

(** A computation over a mutable state [S] that returns or raises; the
    state reached is kept in both cases. *)
Definition ST (S A : Type) : Type := S → Result A * S.

#[global] Instance ST_ret S : MRet (ST S) := λ A a s, (Return a, s).
#[global] Instance ST_bind S : MBind (ST S) := λ A B f m s,
  match m s with
  | (Return a, s') => f a s'
  | (Raise e, s') => (Raise e, s')
  end.

Definition raise {S A} (e : Exc) : ST S A := λ s, (Raise e, s).
Definition lift {S A} (r : Result A) : ST S A := λ s, (r, s).
Definition modify {S} (f : S → S) : ST S unit := λ s, (Return tt, f s).

(** [try: body except ...: handler]: [handler e] is [None] when no except
    clause matches [e], which then propagates. *)
Definition try_except {S A} (body : ST S A) (handler : Exc → option (ST S A))
  : ST S A := λ s,
  match body s with
  | (Return a, s') => (Return a, s')
  | (Raise e, s') =>
      match handler e with
      | Some h => h s'
      | None => (Raise e, s')
      end
  end.

(** ** Versions and requests *)

(** What the [jsonrpc] entry of a request dictionary holds: the string put
    there by [_get_default_vals], or the integer pair computed by
    [_get_jsonrpc]. *)
Inductive PyVer : Type :=
  | VerStr (s : string)
  | VerTuple (t : Z * Z).

#[global] Instance PyVer_eq_dec : EqDecision PyVer.
Proof. solve_decision. Defined.

Definition DEFAULT_JSONRPC : Z * Z := (2, 0).

(** The request dictionary; the keys [method] and [params] are absent
    until [_fill_request] sets them. *)
Record Request : Type := MkRequest {
  req_jsonrpc : PyVer;
  req_id : Value;
  req_method : option string;
  req_params : option Value;
}.

Definition set_id (v : Value) (r : Request) : Request :=
  MkRequest (req_jsonrpc r) v (req_method r) (req_params r).
Definition set_jsonrpc (v : PyVer) (r : Request) : Request :=
  MkRequest v (req_id r) (req_method r) (req_params r).
Definition set_method (m : string) (r : Request) : Request :=
  MkRequest (req_jsonrpc r) (req_id r) (Some m) (req_params r).
Definition set_params (p : Value) (r : Request) : Request :=
  MkRequest (req_jsonrpc r) (req_id r) (req_method r) (Some p).

(** [JSONRPCService._get_default_vals] *)
Definition _get_default_vals : Request :=
  let ver := String.concat "." [pretty (fst DEFAULT_JSONRPC);
                                pretty (snd DEFAULT_JSONRPC)] in
  MkRequest (VerStr ver) VNull None None.

(** [JSONRPCService._fill_ver] *)
Definition _fill_ver (ver : PyVer) (respond : gmap string Value)
  : gmap string Value :=
  if decide (ver = VerTuple (2, 0)) then <["jsonrpc" := VStr "2.0"]> respond
  else if decide (ver = VerTuple (1, 1)) then <["version" := VStr "1.1"]> respond
  else respond.

(** [JSONRPCService._invalid_params_response] *)
Definition _invalid_params_response (err_message : string) (id : Value)
    (jsonrpc : PyVer) : Value :=
  let resp : gmap string Value := {["id" := id]} in
  let resp := _fill_ver jsonrpc resp in
  let resp :=
    <["error" := VDict (<["code" := VInt (-32602)]>
                        (<["data" := details err_message]>
                         {["message" := VStr "Invalid params"]}))]> resp in
  VDict resp.

(** [JSONRPCService._get_err]; the result is [VNull] when the method
    returns [None]. *)
Definition _get_err (e : RpcError) (id : Value) (jsonrpc : PyVer) : Value :=
  if is_None id
     && negb (bool_decide (err_class e = ParseError))
     && negb (bool_decide (err_class e = InvalidRequestError))
  then VNull
  else
    let respond : gmap string Value := {["id" := id]} in
    let respond := _fill_ver jsonrpc respond in
    let respond := <["error" := dumps e]> respond in
    VDict respond.

(** ** The request normalizer *)

(** [d.get(key)] *)
Definition dict_get (d : gmap string Value) (key : string) : Value :=
  match d !! key with
  | Some v => v
  | None => VNull
  end.

(** [key in d] *)
Definition dict_has (d : gmap string Value) (key : string) : bool :=
  bool_decide (is_Some (d !! key)).

(** [v == s] for a string literal [s]: only an equal string is equal to
    a string. *)
Definition eq_str (v : Value) (s : string) : bool :=
  match v with
  | VStr s' => bool_decide (s' = s)
  | _ => false
  end.

(** [JSONRPCService._get_jsonrpc] *)
Definition _get_jsonrpc (rdata : gmap string Value) : Result (Z * Z) :=
  if eq_str (dict_get rdata "jsonrpc") "2.0" then Return (2, 0)
  else if eq_str (dict_get rdata "version") "1.1" then Return (1, 1)
  else if dict_has rdata "jsonrpc" || dict_has rdata "version" then
    Raise (InvalidRequest (details "Invalid JSON-RPC version"))
  else
    Raise (InvalidRequest (details "Missing JSON-RPC version")).

(** [JSONRPCService._get_id] *)
Definition _get_id (rdata : gmap string Value) : Result Value :=
  match rdata !! "id" with
  | Some v =>
      if type_in (py_type v) [O_type T_str; O_type T_int; O_type T_float]
      then Return v
      else Raise (InvalidRequest (details "Invalid type for the `id` field"))
  | None => Return VNull
  end.

(** The values [_get_id] accepts: strings, integers and floats. *)
Definition id_type_ok (v : Value) : Prop :=
  (∃ s, v = VStr s) ∨ (∃ n, v = VInt n) ∨ (∃ f, v = VFloat f).

(** [JSONRPCService._get_params] *)
Definition _get_params (rdata : gmap string Value) : Result Value :=
  match rdata !! "params" with
  | Some v =>
      if type_in (py_type v) [O_type T_dict; O_type T_list; O_None]
      then Return v
      else Raise (InvalidRequest (details "Invalid type for the `params` field"))
  | None => Return VNull
  end.

(** ** External collaborators *)

(** [jsonschema.validate(instance, schema)]: [None] when the instance
    conforms, [Some msg] when it raises [ValidationError] with message
    [msg].  Registered schemas are taken to be well-formed: validation
    raises nothing else. *)
Class JsonSchema : Type := {
  jsonschema_validate : Value → Value → option string;
}.

(** [json.loads] and [json.dumps]: decoding either yields a value or
    raises a [ValueError] whose [str] is given; every [Value] can be
    serialized. *)
Class JsonCodec : Type := {
  json_loads : string → Value + string;
  json_dumps : Value → string;
}.

(** ** Handlers and the method registry *)

(** An exception instance raised inside a handler and caught by
    [except Exception]: the name of its class and its [message] attribute
    when it has one, which may hold any value (the [message] of the
    class [JSONRPCError] itself is [None]). *)
Record PyException : Type := MkPyException {
  exc_class_name : string;
  exc_message : option Value;
}.

Inductive Outcome : Type :=
  | Returned (v : Value)
  | Raised (err : PyException).

Section Service.
Context {World : Type}.

(** A registered function: called with [(params, metadata)], it may read
    and change the world around the service. *)
Record PyFunction : Type := MkPyFunction {
  fn_name : string;
  fn_call : Value → Value → World → Outcome * World;
}.

(** [{'method': f, 'schema': schema}] *)
Record MethodEntry : Type := MkMethodEntry {
  me_method : PyFunction;
  me_schema : Value;
}.

Record JSONRPCService : Type := MkService {
  method_data : gmap string MethodEntry;
}.

(** [JSONRPCService.__init__] *)
Definition new_service : JSONRPCService := MkService ∅.

(** [JSONRPCService.add] *)
Definition add (self : JSONRPCService) (f : PyFunction) (name : option string)
    (schema : Value) : JSONRPCService :=
  let fname :=
    match name with
    | None => fn_name f
    | Some name => name
    end in
  MkService (<[fname := MkMethodEntry f schema]> (method_data self)).

(** [list(self.method_data.keys())] *)
Definition method_names (self : JSONRPCService) : Value :=
  VList (VStr <$> (map_to_list (method_data self)).*1).

(** [JSONRPCService._get_method] *)
Definition _get_method (self : JSONRPCService) (rdata : gmap string Value)
  : Result string :=
  match rdata !! "method" with
  | Some (VStr m) =>
      if bool_decide (is_Some (method_data self !! m)) then Return m
      else (* rdata['method'] not in self.method_data *)
        Raise (RpcExc (MkRpcError MethodNotFoundError
                            (VDict {["available_methods" := method_names self]})))
  | Some _ =>
      Raise (InvalidRequest
               (details ("Invalid type for the " +:+ dquote +:+ "method" +:+ dquote
                         +:+ " field; must be a string")))
  | None =>
      Raise (InvalidRequest
               (details ("The required " +:+ dquote +:+ "method" +:+ dquote
                         +:+ " field is missing")))
  end.

(** [JSONRPCService._fill_request]: the request dictionary is updated in
    place, one key after the other, so a failing step leaves the keys set
    by the steps before it. *)
Definition _fill_request (self : JSONRPCService) (rdata : Value)
  : ST Request unit :=
  match rdata with
  | VDict rdata =>
      id ← lift (_get_id rdata); modify (set_id id);;
      jsonrpc ← lift (_get_jsonrpc rdata); modify (set_jsonrpc (VerTuple jsonrpc));;
      method ← lift (_get_method self rdata); modify (set_method method);;
      params ← lift (_get_params rdata); modify (set_params params)
  | _ => raise (InvalidRequest VNull)
  end.

(** A request dictionary as a successful [_fill_request] leaves it: the
    four keys are set and the method is registered. *)
Definition filled (self : JSONRPCService) (request : Request) : Prop :=
  ∃ ver id name params entry,
    request = MkRequest (VerTuple ver) id (Some name) (Some params)
    ∧ (ver = (2, 0) ∨ ver = (1, 1))
    ∧ method_data self !! name = Some entry.

(** ** The dispatcher *)

(** [request[key]] on an entry that may be absent *)
Definition subscript {S A} (key : string) (o : option A) : ST S A :=
  match o with
  | Some a => mret a
  | None => raise (KeyError key)
  end.

(** The [data] of the [ServerError] built from a handler's exception:
    [': ' + err.message] is a string when the message is one, and raises
    [TypeError] when it is anything else. *)
Definition server_error_data (err : PyException) (method : string)
  : Result Value :=
  let data (details : string) : Value :=
    VDict (<["method" := VStr method]> {["details" := VStr details]}) in
  let details := exc_class_name err in
  match exc_message err with
  | None => Return (data details)
  | Some (VStr m) => Return (data (details +:+ ": " +:+ m))
  | Some _ => Raise TypeError
  end.

(** The [try] statement of [_call_method]: the handler is called, and
    what it raises is replaced by a [ServerError]; an exception raised
    while the data of that error are put together leaves the except block
    as it is. *)
Definition try_method (method : PyFunction) (name : string)
    (params metadata : Value) : ST World Value := λ w,
  match fn_call method params metadata w with
  | (Returned result, w') => (Return result, w')
  | (Raised err, w') =>
      match server_error_data err name with
      | Return data => (Raise (RpcExc (MkRpcError ServerError data)), w')
      | Raise e => (Raise e, w')
      end
  end.

(** [JSONRPCService._call_method] *)
Definition _call_method `{!JsonSchema} (self : JSONRPCService)
    (request : Request) (metadata : Value) : ST World Value :=
  name ← subscript "method" (req_method request);
  entry ← subscript name (method_data self !! name);
  let method := me_method entry in
  let schema := me_schema entry in
  params ← subscript "params" (req_params request);
  (if truthy schema then
     match jsonschema_validate params schema with
     | Some msg => raise (ValidationError msg)
     | None => mret tt
     end
   else mret tt);;
  try_method method name params metadata.

(** The schema check of [_call_method] lets [params] through: there is no
    (truthy) schema, or the validator accepts. *)
Definition schema_accepts `{!JsonSchema} (entry : MethodEntry)
    (params : Value) : Prop :=
  truthy (me_schema entry) = false
  ∨ jsonschema_validate params (me_schema entry) = None.

(** [JSONRPCService._handle_request]; [VNull] is the [None] returned for a
    notification. *)
Definition _handle_request `{!JsonSchema} (self : JSONRPCService)
    (request : Request) (metadata : Value) : ST World Value :=
  result ← _call_method self request metadata;
  if is_None (req_id request) then mret VNull
  else
    let respond : gmap string Value := _fill_ver (req_jsonrpc request) ∅ in
    let respond := <["result" := result]> respond in
    let respond := <["id" := req_id request]> respond in
    mret (VDict respond).

(** ** The batch orchestrator *)

(** One round of the first loop of a batch: normalize the entry into a
    fresh request dictionary, and collect either the request or the error
    response of the entry. *)
Definition batch_fill (self : JSONRPCService) (rdata_ : Value)
    (acc : list Request * list Value) : Result (list Request * list Value) :=
  let '(requests, responds) := acc in
  let request_ := _get_default_vals in
  match _fill_request self rdata_ request_ with
  | (Return _, request_) => Return (requests ++ [request_], responds)
  | (Raise (RpcExc e), request_) =>
      if bool_decide (err_class e = InvalidRequestError) then
        (* except InvalidRequestError *)
        let err := _get_err e (req_id request_) (VerTuple DEFAULT_JSONRPC) in
        Return (requests, if truthy err then responds ++ [err] else responds)
      else
        (* except JSONRPCError *)
        let err := _get_err e (req_id request_) (VerTuple DEFAULT_JSONRPC) in
        Return (requests, if truthy err then responds ++ [err] else responds)
  | (Raise e, _) => Raise e
  end.

Fixpoint batch_fill_loop (self : JSONRPCService) (rdata : list Value)
    (acc : list Request * list Value) : Result (list Request * list Value) :=
  match rdata with
  | [] => Return acc
  | rdata_ :: rdata => acc ← batch_fill self rdata_ acc; batch_fill_loop self rdata acc
  end.

(** One round of the second loop: dispatch the request; only the
    [JSONRPCError] classes are caught here. *)
Definition batch_handle `{!JsonSchema} (self : JSONRPCService)
    (metadata : Value) (request_ : Request) (responds : list Value)
  : ST World (list Value) :=
  respond ← try_except (_handle_request self request_ metadata)
              (λ e, match e with
                    | RpcExc e =>
                        Some (mret (_get_err e (req_id request_) (req_jsonrpc request_)))
                    | _ => None
                    end);
  if negb (is_None respond) then mret (responds ++ [respond])
  else mret responds.

Fixpoint batch_handle_loop `{!JsonSchema} (self : JSONRPCService)
    (metadata : Value) (requests : list Request) (responds : list Value)
  : ST World (list Value) :=
  match requests with
  | [] => mret responds
  | request_ :: requests =>
      responds ← batch_handle self metadata request_ responds;
      batch_handle_loop self metadata requests responds
  end.

(** ** Entry points *)

(** The body of the [try] statement of [call_py], run on the request
    dictionary of default values; it hands back that dictionary as the
    except clauses will find it. *)
Definition call_py_body `{!JsonSchema} (self : JSONRPCService)
    (rdata metadata : Value) (request : Request)
  : ST World Value * Request :=
  if isinstance_dict rdata && truthy rdata then
    (* It's a single request. *)
    match _fill_request self rdata request with
    | (Return _, request) => (_handle_request self request metadata, request)
    | (Raise e, request) => (raise e, request)
    end
  else
    match rdata with
    | VList l =>
        if negb (truthy rdata) then
          (raise (InvalidRequest (details "Batch request array is empty")), request)
        else
          (* It's a batch. *)
          ('(requests, responds) ← lift (batch_fill_loop self l ([], []));
           responds ← batch_handle_loop self metadata requests responds;
           if truthy (VList responds) then mret (VList responds)
           else mret VNull,
           request)
    | _ => (raise (InvalidRequest VNull), request)
    end.

(** [JSONRPCService.call_py]; [VNull] is the [None] of "nothing to
    respond". *)
Definition call_py `{!JsonSchema} (self : JSONRPCService)
    (rdata metadata : Value) : ST World Value :=
  let '(body, request) := call_py_body self rdata metadata _get_default_vals in
  try_except body
    (λ e, match e with
          | RpcExc e =>
              if bool_decide (err_class e = InvalidRequestError) then
                Some (mret (_get_err e (req_id request) (VerTuple DEFAULT_JSONRPC)))
              else
                Some (mret (_get_err e (req_id request) (req_jsonrpc request)))
          | ValidationError msg =>
              Some (mret (_invalid_params_response msg (req_id request)
                            (req_jsonrpc request)))
          | _ => None
          end).

(** [JSONRPCService.call] *)
Definition call `{!JsonSchema} `{!JsonCodec} (self : JSONRPCService)
    (jsondata : string) (metadata : Value) : ST World (option string) :=
  match json_loads jsondata with
  | inr err =>
      let err := _get_err (MkRpcError ParseError (details err)) VNull
                   (VerTuple DEFAULT_JSONRPC) in
      mret (Some (json_dumps err))
  | inl request_data =>
      result ← call_py self request_data metadata;
      if negb (is_None result) then mret (Some (json_dumps result))
      else mret None
  end.

End Service.

Arguments PyFunction : clear implicits.
Arguments MethodEntry : clear implicits.
Arguments JSONRPCService : clear implicits.

(** ** Vocabulary of the statements *)

(** The shape of a response: an [id], and either a [result] or an [error]
    object with [code] and [message], never both. *)
Definition is_response (v : Value) : Prop :=
  ∃ d : gmap string Value,
    v = VDict d
    ∧ is_Some (d !! "id")
    ∧ ((is_Some (d !! "result") ∧ d !! "error" = None)
       ∨ (d !! "result" = None
          ∧ ∃ e : gmap string Value,
              d !! "error" = Some (VDict e)
              ∧ is_Some (e !! "code") ∧ is_Some (e !! "message"))).

(** A response stamped with exactly one dialect. *)
Definition stamped (d : gmap string Value) : Prop :=
  (d !! "jsonrpc" = Some (VStr "2.0") ∧ d !! "version" = None)
  ∨ (d !! "version" = Some (VStr "1.1") ∧ d !! "jsonrpc" = None).

(** Some entry of the batch is a dictionary whose [id] is [id]. *)
Definition carries_id (l : list Value) (id : Value) : Prop :=
  ∃ rdata : gmap string Value, VDict rdata ∈ l ∧ rdata !! "id" = Some id.

(** The exception has no [message] attribute, or one that is a string. *)
Definition plain_message (err : PyException) : Prop :=
  match exc_message err with
  | None | Some (VStr _) => True
  | Some _ => False
  end.


(** Some handler of the service, called with [metadata], raises an
    exception whose message is not plain. *)
Definition unplain_handler {World} (self : JSONRPCService World)
    (metadata : Value) : Prop :=
  ∃ name entry params w err w',
    method_data self !! name = Some entry
    ∧ fn_call (me_method entry) params metadata w = (Raised err, w')
    ∧ ¬ plain_message err.


(** ** A concrete service

    The world is the log of the handlers that ran, oldest first. *)
Module Example.

Definition logged (name : string) (body : Value → Outcome)
  : PyFunction (list string) :=
  MkPyFunction name (λ params _ log, (body params, log ++ [name])).

Definition square : PyFunction (list string) :=
  logged "square" (λ params,
    match params with
    | VList [VInt a] => Returned (VInt (a * a))
    | _ => Raised (MkPyException "TypeError" None)
    end).

Definition hello : PyFunction (list string) :=
  logged "hello" (λ _, Returned (VStr "Hello world!")).

Definition noop : PyFunction (list string) :=
  logged "noop" (λ _, Returned VNull).

Definition broken_func : PyFunction (list string) :=
  logged "broken_func" (λ _, Raised (MkPyException "TypeError" None)).

Definition rejecting : PyFunction (list string) :=
  logged "rejecting"
    (λ _, Raised (MkPyException "Rejected" (Some (VStr "not today")))).

(** The schema [{"type": "object"}]. *)
Definition object_schema : Value := VDict {["type" := VStr "object"]}.

(** [repr] of a value, to a bounded depth. *)
Fixpoint repr_depth (n : nat) (v : Value) : string :=
  match n with
  | O => "..."
  | S n =>
    match v with
    | VNull => "None"
    | VBool true => "True"
    | VBool false => "False"
    | VInt z => pretty z
    | VFloat _ => "0.0"
    | VStr s => "'" +:+ s +:+ "'"
    | VList l => "[" +:+ String.concat ", " (repr_depth n <$> l) +:+ "]"
    | VDict d =>
        "{" +:+ String.concat ", "
                  ((λ kv, "'" +:+ kv.1 +:+ "': " +:+ repr_depth n kv.2)
                     <$> map_to_list d) +:+ "}"
    end
  end.

(** A validator that knows the keyword [type] for objects and arrays. *)
#[export] Instance type_validator : JsonSchema := {
  jsonschema_validate instance schema :=
    match schema with
    | VDict s =>
        match s !! "type", instance with
        | Some (VStr "object"), VDict _ => None
        | Some (VStr "object"), _ =>
            Some (repr_depth 8 instance +:+ " is not of type 'object'")
        | Some (VStr "array"), VList _ => None
        | Some (VStr "array"), _ =>
            Some (repr_depth 8 instance +:+ " is not of type 'array'")
        | _, _ => None
        end
    | _ => None
    end;
}.

(** [square], [hello], [noop], [broken_func] and [rejecting] under their
    own names, and [noop] once more as [configure], which takes an
    object. *)
Definition service : JSONRPCService (list string) :=
  add (add (add (add (add (add new_service
    square None VNull)
    hello None VNull)
    noop None VNull)
    broken_func None VNull)
    rejecting None VNull)
    noop (Some "configure") object_schema.

(** Serialization with sorted keys, to a bounded depth. *)
Fixpoint dumps_depth (n : nat) (v : Value) : string :=
  match n with
  | O => "..."
  | S n =>
    match v with
    | VNull => "null"
    | VBool true => "true"
    | VBool false => "false"
    | VInt z => pretty z
    | VFloat _ => "0.0"
    | VStr s => dquote +:+ s +:+ dquote
    | VList l => "[" +:+ String.concat ", " (dumps_depth n <$> l) +:+ "]"
    | VDict d =>
        "{" +:+ String.concat ", "
                  ((λ kv, dquote +:+ kv.1 +:+ dquote +:+ ": " +:+ dumps_depth n kv.2)
                     <$> map_to_list d) +:+ "}"
    end
  end.

(** A codec that decodes three payloads and serializes small values. *)
#[export] Instance small_codec : JsonCodec := {
  json_loads s :=
    if bool_decide (s = "[]") then inl (VList [])
    else if bool_decide (s = "{}") then inl (VDict ∅)
    else if bool_decide (s = "[1, 2, 3]") then inl (VList [VInt 1; VInt 2; VInt 3])
    else inr "Expecting value: line 1 column 1 (char 0)";
  json_dumps := dumps_depth 8;
}.

(** Requests in the 2.0 dialect. *)
Definition fields2 (method : string) (params id : option Value)
  : gmap string Value :=
  let d : gmap string Value :=
    <["method" := VStr method]> {["jsonrpc" := VStr "2.0"]} in
  let d := match params with Some p => <["params" := p]> d | None => d end in
  match id with Some i => <["id" := i]> d | None => d end.

Definition request2 (method : string) (params id : option Value) : Value :=
  VDict (fields2 method params id).

(** The [id], the [result] and the error code of a response. *)
Definition answer (respond : Value) : option Value * option Value * option Value :=
  match respond with
  | VDict d =>
      (d !! "id", d !! "result",
       match d !! "error" with
       | Some (VDict e) => e !! "code"
       | _ => None
       end)
  | _ => (None, None, None)
  end.

(** The answers in the output of a batch call. *)
Definition answers {W} (out : Result Value * W)
  : option (list (option Value * option Value * option Value)) :=
  match out with
  | (Return (VList responds), _) => Some (answer <$> responds)
  | _ => None
  end.

(** A request in the 1.1 dialect. *)
Definition fields1 (method : string) (id : Value) : gmap string Value :=
  {[ "version" := VStr "1.1"; "method" := VStr method; "id" := id ]}.

(** A handler that raises the base class of the service's own errors,
    [JSONRPCError()], whose [message] is [None]. *)
Definition refusing : PyFunction (list string) :=
  logged "refusing" (λ _, Raised (MkPyException "JSONRPCError" (Some VNull))).

(** [hello] and [refusing], registered without schema. *)
Definition refusing_service : JSONRPCService (list string) :=
  add (add new_service hello None VNull) refusing None VNull.

(** [square], [hello] and [broken_func], registered without schema. *)
Definition plain_service : JSONRPCService (list string) :=
  add (add (add new_service square None VNull) hello None VNull)
    broken_func None VNull.

End Example.

(** * Properties *)

(** Unfolding of the monadic plumbing. *)
Ltac st_unfold :=
  unfold mbind, mret, ST_bind, ST_ret, Result_bind, Result_ret,
    lift, modify, raise, subscript, try_except in *.

Ltac st_simpl := st_unfold; cbn [fst snd].

Ltac break_hyps :=
  repeat match goal with
         | H : _ ∧ _ |- _ => destruct H
         | H : _ ∨ _ |- _ => destruct H
         | H : is_Some _ |- _ => destruct H
         | H : ∃ _, _ |- _ => destruct H
         end.

(** ** Values and versions *)

Lemma eq_str_true v s : eq_str v s = true ↔ v = VStr s.
Proof.
  destruct v; cbn; try (split; [discriminate | intros [=]]).
  rewrite bool_decide_eq_true. split; [intros -> | intros [= ->]]; done.
Qed.

Lemma eq_str_dict_get (d : gmap string Value) key s :
  eq_str (dict_get d key) s = true ↔ d !! key = Some (VStr s).
Proof.
  rewrite eq_str_true. unfold dict_get.
  destruct (d !! key) as [v|]; split; intros E; try congruence; discriminate.
Qed.

Lemma dict_has_true (d : gmap string Value) key :
  dict_has d key = true ↔ is_Some (d !! key).
Proof. apply bool_decide_eq_true. Qed.

Lemma dict_has_false (d : gmap string Value) key :
  dict_has d key = false ↔ d !! key = None.
Proof.
  unfold dict_has. rewrite bool_decide_eq_false, eq_None_not_Some. done.
Qed.

Lemma default_vals : _get_default_vals = MkRequest (VerStr "2.0") VNull None None.
Proof. reflexivity. Qed.

Lemma VDict_inj d1 d2 : VDict d1 = VDict d2 → d1 = d2.
Proof.
  intros E.
  exact (f_equal (λ v, match v with VDict d => d | _ => d1 end) E).
Qed.

Lemma details_inj s1 s2 : details s1 = details s2 → s1 = s2.
Proof.
  unfold details. intros E%VDict_inj.
  apply (f_equal (λ m : gmap string Value, m !! "details")) in E.
  rewrite !lookup_singleton_eq in E. congruence.
Qed.

Lemma fill_ver_2_0 respond :
  _fill_ver (VerTuple (2, 0)) respond = <["jsonrpc" := VStr "2.0"]> respond.
Proof. reflexivity. Qed.

Lemma fill_ver_1_1 respond :
  _fill_ver (VerTuple (1, 1)) respond = <["version" := VStr "1.1"]> respond.
Proof. reflexivity. Qed.

Lemma fill_ver_str s respond : _fill_ver (VerStr s) respond = respond.
Proof. reflexivity. Qed.

(** ** The envelope builder *)

Lemma get_err_visible e id jsonrpc :
  err_class e = ParseError ∨ err_class e = InvalidRequestError ∨ id ≠ VNull →
  _get_err e id jsonrpc
  = VDict (<["error" := dumps e]> (_fill_ver jsonrpc {["id" := id]})).
Proof.
  intros Hv. unfold _get_err.
  destruct (is_None id) eqn:Hid; [|done].
  destruct id; try discriminate.
  destruct Hv as [-> | [-> | ?]]; done.
Qed.

Lemma get_err_suppressed e jsonrpc :
  err_class e ≠ ParseError → err_class e ≠ InvalidRequestError →
  _get_err e VNull jsonrpc = VNull.
Proof.
  intros H1 H2. unfold _get_err. cbn.
  rewrite !bool_decide_eq_false_2 by done. done.
Qed.

Lemma get_err_cases e id jsonrpc :
  _get_err e id jsonrpc = VNull
  ∨ _get_err e id jsonrpc
    = VDict (<["error" := dumps e]> (_fill_ver jsonrpc {["id" := id]})).
Proof. unfold _get_err. case_match; auto. Qed.

Lemma fill_ver_lookup ver (respond : gmap string Value) key :
  key ≠ "jsonrpc" → key ≠ "version" →
  _fill_ver ver respond !! key = respond !! key.
Proof.
  intros H1 H2. unfold _fill_ver.
  repeat case_decide; by rewrite ?lookup_insert_ne.
Qed.

(** A response built by [_get_err] carries the [id] it was given. *)
Lemma get_err_id e id jsonrpc (respond : gmap string Value) :
  _get_err e id jsonrpc = VDict respond → respond !! "id" = Some id.
Proof.
  destruct (get_err_cases e id jsonrpc) as [-> | ->]; [discriminate|].
  intros <-%VDict_inj.
  rewrite lookup_insert_ne by done.
  rewrite fill_ver_lookup by done. apply lookup_singleton_eq.
Qed.

(** An error response is a non-empty dictionary, hence truthy. *)
Lemma truthy_insert key v (d : gmap string Value) :
  truthy (VDict (<[key := v]> d)) = true.
Proof.
  cbn. apply negb_true_iff, Nat.eqb_neq. intros Hs.
  apply map_size_empty_iff in Hs.
  by apply (insert_non_empty d key v).
Qed.

Lemma truthy_get_err e id jsonrpc :
  truthy (_get_err e id jsonrpc) = negb (is_None (_get_err e id jsonrpc)).
Proof.
  destruct (get_err_cases e id jsonrpc) as [-> | ->]; [done|].
  by rewrite truthy_insert.
Qed.

(** ** The request normalizer *)

Lemma Raise_inj {A} (e1 e2 : Exc) : @Raise A e1 = Raise e2 → e1 = e2.
Proof.
  intros E.
  exact (f_equal (λ r, match r with Raise e => e | _ => e1 end) E).
Qed.

Lemma raise_details_inj {A} s1 s2 :
  @Raise A (InvalidRequest (details s1)) = Raise (InvalidRequest (details s2)) →
  s1 = s2.
Proof.
  intros E. apply details_inj.
  exact (f_equal (λ r, match r with
                       | Raise (RpcExc e) => err_data e
                       | _ => VNull
                       end) E).
Qed.

Lemma eq_str_dict_get_false (d : gmap string Value) key s :
  eq_str (dict_get d key) s = false ↔ d !! key ≠ Some (VStr s).
Proof.
  rewrite <- eq_str_dict_get. destruct (eq_str _ _); split; congruence.
Qed.

(** C5. Version extraction: [(2, 0)] exactly when the field [jsonrpc] is
    the string ["2.0"]; otherwise [(1, 1)] exactly when the field
    [version] is the string ["1.1"]; otherwise [InvalidRequest] with
    details "Invalid JSON-RPC version" exactly when one of the two fields
    is present, and with details "Missing JSON-RPC version" exactly when
    neither is. *)
Theorem get_jsonrpc_spec (rdata : gmap string Value) :
  (_get_jsonrpc rdata = Return (2, 0) ↔ rdata !! "jsonrpc" = Some (VStr "2.0"))
  ∧ (_get_jsonrpc rdata = Return (1, 1) ↔
       rdata !! "jsonrpc" ≠ Some (VStr "2.0")
       ∧ rdata !! "version" = Some (VStr "1.1"))
  ∧ (_get_jsonrpc rdata = Raise (InvalidRequest (details "Invalid JSON-RPC version")) ↔
       rdata !! "jsonrpc" ≠ Some (VStr "2.0")
       ∧ rdata !! "version" ≠ Some (VStr "1.1")
       ∧ (is_Some (rdata !! "jsonrpc") ∨ is_Some (rdata !! "version")))
  ∧ (_get_jsonrpc rdata = Raise (InvalidRequest (details "Missing JSON-RPC version")) ↔
       rdata !! "jsonrpc" = None ∧ rdata !! "version" = None).
Proof.
  unfold _get_jsonrpc.
  destruct (eq_str (dict_get rdata "jsonrpc") "2.0") eqn:E2;
    [apply eq_str_dict_get in E2 | apply eq_str_dict_get_false in E2];
    [|destruct (eq_str (dict_get rdata "version") "1.1") eqn:E1;
      [apply eq_str_dict_get in E1 | apply eq_str_dict_get_false in E1];
      [|destruct (dict_has rdata "jsonrpc") eqn:Hj;
        [apply dict_has_true in Hj; destruct Hj as [vj Hj]
        |apply dict_has_false in Hj;
         destruct (dict_has rdata "version") eqn:Hv;
         [apply dict_has_true in Hv; destruct Hv as [vv Hv]
         |apply dict_has_false in Hv]]]];
    cbn [orb]; split_and!; (split; intros E);
    try first [discriminate E | apply raise_details_inj in E; discriminate E];
    break_hyps; try congruence; split_and!; eauto; congruence.
Qed.

(** The version computed is one of the two dialects. *)
Lemma get_jsonrpc_return rdata ver :
  _get_jsonrpc rdata = Return ver → ver = (2, 0) ∨ ver = (1, 1).
Proof.
  unfold _get_jsonrpc. repeat case_match; intros [=]; auto.
Qed.

Lemma get_jsonrpc_raise rdata e :
  _get_jsonrpc rdata = Raise e →
  ∃ data, e = InvalidRequest data.
Proof.
  unfold _get_jsonrpc. repeat case_match; intros E; try discriminate;
    eexists; symmetry;
    exact (f_equal (λ r, match r with Raise e' => e' | _ => e end) E).
Qed.

Lemma type_in_id v :
  type_in (py_type v) [O_type T_str; O_type T_int; O_type T_float] = true
  ↔ id_type_ok v.
Proof.
  unfold id_type_ok. destruct v; cbn; split; try discriminate; eauto;
    intros [[? [=]] | [[? [=]] | [? [=]]]].
Qed.

Lemma get_id_absent rdata : rdata !! "id" = None → _get_id rdata = Return VNull.
Proof. unfold _get_id. by intros ->. Qed.

Lemma get_id_present rdata v :
  rdata !! "id" = Some v → id_type_ok v → _get_id rdata = Return v.
Proof.
  unfold _get_id. intros -> Hok%type_in_id. by rewrite Hok.
Qed.

Lemma get_id_invalid rdata v :
  rdata !! "id" = Some v → ¬ id_type_ok v →
  _get_id rdata = Raise (InvalidRequest (details "Invalid type for the `id` field")).
Proof.
  unfold _get_id. intros -> Hok. rewrite <- type_in_id in Hok.
  by destruct (type_in _ _).
Qed.

(** Only an absent [id] key gives the notification marker. *)
Lemma get_id_None rdata : _get_id rdata = Return VNull ↔ rdata !! "id" = None.
Proof.
  split; [|apply get_id_absent].
  unfold _get_id. destruct (rdata !! "id") as [v|]; [|done].
  destruct v; cbn; intros [=].
Qed.

Lemma get_id_raise rdata e :
  _get_id rdata = Raise e → ∃ data, e = InvalidRequest data.
Proof.
  unfold _get_id. repeat case_match; intros E; try discriminate;
    eexists; symmetry;
    exact (f_equal (λ r, match r with Raise e' => e' | _ => e end) E).
Qed.

(** [_get_params] accepts exactly lists and dictionaries. *)
Lemma type_in_params v :
  type_in (py_type v) [O_type T_dict; O_type T_list; O_None] = true
  ↔ (∃ l, v = VList l) ∨ (∃ d, v = VDict d).
Proof.
  destruct v; cbn; split; try discriminate; eauto;
    intros [[? [=]] | [? [=]]].
Qed.

Lemma get_params_absent rdata :
  rdata !! "params" = None → _get_params rdata = Return VNull.
Proof. unfold _get_params. by intros ->. Qed.

Lemma get_params_list rdata l :
  rdata !! "params" = Some (VList l) → _get_params rdata = Return (VList l).
Proof. unfold _get_params. by intros ->. Qed.

Lemma get_params_dict rdata d :
  rdata !! "params" = Some (VDict d) → _get_params rdata = Return (VDict d).
Proof. unfold _get_params. by intros ->. Qed.

Lemma get_params_other rdata v :
  rdata !! "params" = Some v →
  (∀ l, v ≠ VList l) → (∀ d, v ≠ VDict d) →
  _get_params rdata
  = Raise (InvalidRequest (details "Invalid type for the `params` field")).
Proof.
  unfold _get_params. intros -> Hl Hd.
  destruct v; cbn; try done; [by destruct (Hl l) | by destruct (Hd d)].
Qed.

Lemma get_params_raise rdata e :
  _get_params rdata = Raise e → ∃ data, e = InvalidRequest data.
Proof.
  unfold _get_params. repeat case_match; intros E; try discriminate;
    eexists; symmetry;
    exact (f_equal (λ r, match r with Raise e' => e' | _ => e end) E).
Qed.

Section Normalizer.
Context {World : Type}.
Implicit Types (self : JSONRPCService World) (rdata : gmap string Value).

Lemma get_method_ok self rdata m :
  rdata !! "method" = Some (VStr m) → is_Some (method_data self !! m) →
  _get_method self rdata = Return m.
Proof.
  unfold _get_method. intros -> Hm. by rewrite bool_decide_eq_true_2.
Qed.

Lemma get_method_unknown self rdata m :
  rdata !! "method" = Some (VStr m) → method_data self !! m = None →
  _get_method self rdata
  = Raise (RpcExc (MkRpcError MethodNotFoundError
                     (VDict {["available_methods" := method_names self]}))).
Proof.
  unfold _get_method. intros -> Hm. rewrite bool_decide_eq_false_2; [done|].
  rewrite Hm. by intros [? ?].
Qed.

Lemma get_method_return self rdata m :
  _get_method self rdata = Return m →
  rdata !! "method" = Some (VStr m) ∧ is_Some (method_data self !! m).
Proof.
  unfold _get_method. destruct (rdata !! "method") as [[]|]; try discriminate.
  case_bool_decide; [|discriminate]. intros [= ->]. done.
Qed.

Lemma get_method_raise self rdata e :
  _get_method self rdata = Raise e →
  ∃ data, e = InvalidRequest data
          ∨ e = RpcExc (MkRpcError MethodNotFoundError data).
Proof.
  unfold _get_method. repeat case_match; intros E; try discriminate;
    apply Raise_inj in E; subst e; eexists;
    first [by left | by right].
Qed.

(** A request that passes the four extraction steps fills all four keys. *)
Lemma fill_request_ok self rdata request id ver method params :
  _get_id rdata = Return id →
  _get_jsonrpc rdata = Return ver →
  _get_method self rdata = Return method →
  _get_params rdata = Return params →
  _fill_request self (VDict rdata) request
  = (Return tt, MkRequest (VerTuple ver) id (Some method) (Some params)).
Proof.
  intros Hi Hv Hm Hp. unfold _fill_request. st_simpl.
  by rewrite Hi, Hv, Hm, Hp.
Qed.

Lemma fill_request_return self v request u request' :
  _fill_request self v request = (Return u, request') →
  ∃ rdata id ver method params,
    v = VDict rdata
    ∧ _get_id rdata = Return id
    ∧ _get_jsonrpc rdata = Return ver
    ∧ _get_method self rdata = Return method
    ∧ _get_params rdata = Return params
    ∧ request' = MkRequest (VerTuple ver) id (Some method) (Some params).
Proof.
  unfold _fill_request. destruct v as [| | | | | |rdata]; st_simpl;
    try discriminate.
  destruct (_get_id rdata) as [id|] eqn:Hi; [|discriminate].
  destruct (_get_jsonrpc rdata) as [ver|] eqn:Hv; [|discriminate].
  destruct (_get_method self rdata) as [method|] eqn:Hm; [|discriminate].
  destruct (_get_params rdata) as [params|] eqn:Hp; [|discriminate].
  intros [= <- <-]. by exists rdata, id, ver, method, params.
Qed.

(** Normalization raises nothing but [InvalidRequestError] and
    [MethodNotFoundError]. *)
Lemma fill_request_raise self v request e request' :
  _fill_request self v request = (Raise e, request') →
  ∃ data, e = InvalidRequest data
          ∨ e = RpcExc (MkRpcError MethodNotFoundError data).
Proof.
  unfold _fill_request. destruct v as [| | | | | |rdata]; st_simpl;
    try (intros [= <- _]; exists VNull; by left).
  destruct (_get_id rdata) as [id|] eqn:Hi.
  2:{ intros [= <- _]. apply get_id_raise in Hi as [d ->]. eauto. }
  destruct (_get_jsonrpc rdata) as [ver|] eqn:Hv.
  2:{ intros [= <- _]. apply get_jsonrpc_raise in Hv as [d ->]. eauto. }
  destruct (_get_method self rdata) as [method|] eqn:Hm.
  2:{ intros [= <- _]. by apply get_method_raise in Hm. }
  destruct (_get_params rdata) as [params|] eqn:Hp; [discriminate|].
  intros [= <- _]. apply get_params_raise in Hp as [d ->]. eauto.
Qed.

(** A failing [id] step leaves the request dictionary as it was. *)
Lemma fill_request_id_raise self rdata request e :
  _get_id rdata = Raise e →
  _fill_request self (VDict rdata) request = (Raise e, request).
Proof. intros Hi. unfold _fill_request. st_simpl. by rewrite Hi. Qed.

End Normalizer.

(** ** The dispatcher *)

Lemma truthy_dict_lookup (d : gmap string Value) key v :
  d !! key = Some v → truthy (VDict d) = true.
Proof.
  intros Hk. cbn. apply negb_true_iff, Nat.eqb_neq. intros Hs.
  apply map_size_empty_iff in Hs. subst d. by rewrite lookup_empty in Hk.
Qed.

Lemma id_type_ok_not_None id : id_type_ok id → is_None id = false.
Proof. by intros [[? ->] | [[? ->] | [? ->]]]. Qed.

Lemma id_type_ok_not_null id : id_type_ok id → id ≠ VNull.
Proof. by intros [[? ->] | [[? ->] | [? ->]]]. Qed.

(** The data of a [ServerError] exist exactly for a plain message. *)
Lemma server_error_data_cases err name :
  (plain_message err ∧ ∃ data, server_error_data err name = Return data)
  ∨ (¬ plain_message err ∧ server_error_data err name = Raise TypeError).
Proof.
  unfold server_error_data, plain_message.
  destruct (exc_message err) as [[]|]; (left; split; [done | by eexists])
    || (right; split; [tauto | done]).
Qed.

Lemma server_error_data_plain err name :
  plain_message err →
  ∃ text,
    server_error_data err name
    = Return (VDict (<["method" := VStr name]> {["details" := VStr text]}))
    ∧ (exc_message err = None → text = exc_class_name err)
    ∧ (∀ m, exc_message err = Some (VStr m) →
            text = exc_class_name err +:+ ": " +:+ m).
Proof.
  unfold server_error_data, plain_message.
  destruct (exc_message err) as [[]|]; try done; intros _; eexists;
    (split; [reflexivity|]); split; try done; by intros ? [= ->].
Qed.

Section Dispatcher.
Context {World : Type} `{!JsonSchema}.
Implicit Types (self : JSONRPCService World) (rdata : gmap string Value)
  (w : World).

Lemma call_method_invoke self jsonrpc id name params entry md w :
  method_data self !! name = Some entry →
  schema_accepts entry params →
  _call_method self (MkRequest jsonrpc id (Some name) (Some params)) md w
  = try_method (me_method entry) name params md w.
Proof.
  intros Hm Hs. unfold _call_method. st_unfold. cbn. rewrite Hm. cbn.
  destruct Hs as [-> | Hs]; [done|].
  rewrite Hs. by destruct (truthy _).
Qed.

Lemma call_method_invalid self jsonrpc id name params entry md w msg :
  method_data self !! name = Some entry →
  truthy (me_schema entry) = true →
  jsonschema_validate params (me_schema entry) = Some msg →
  _call_method self (MkRequest jsonrpc id (Some name) (Some params)) md w
  = (Raise (ValidationError msg), w).
Proof.
  intros Hm Ht Hs. unfold _call_method. st_unfold. cbn. rewrite Hm. cbn.
  by rewrite Ht, Hs.
Qed.

Lemma try_method_returned (f : PyFunction World) name params md w v w' :
  fn_call f params md w = (Returned v, w') →
  try_method f name params md w = (Return v, w').
Proof. unfold try_method. by intros ->. Qed.

Lemma try_method_raised (f : PyFunction World) name params md w err w' data :
  fn_call f params md w = (Raised err, w') →
  server_error_data err name = Return data →
  try_method f name params md w
  = (Raise (RpcExc (MkRpcError ServerError data)), w').
Proof. unfold try_method. by intros -> ->. Qed.

Lemma try_method_type_error (f : PyFunction World) name params md w err w' :
  fn_call f params md w = (Raised err, w') →
  ¬ plain_message err →
  try_method f name params md w = (Raise TypeError, w').
Proof.
  unfold try_method. intros -> Hp.
  destruct (server_error_data_cases err name) as [[? _] | [_ ->]]; done.
Qed.

(** Whatever the handler does, [try_method] returns a value, or raises a
    [ServerError], or raises the [TypeError] of a message that is not a
    string. *)
Lemma try_method_cases (f : PyFunction World) name params md w :
  (∃ v w', try_method f name params md w = (Return v, w'))
  ∨ (∃ data w', try_method f name params md w
                = (Raise (RpcExc (MkRpcError ServerError data)), w'))
  ∨ (∃ err w', try_method f name params md w = (Raise TypeError, w')
               ∧ fn_call f params md w = (Raised err, w')
               ∧ ¬ plain_message err).
Proof.
  unfold try_method. destruct (fn_call f params md w) as [[v|err] w']; [eauto|].
  destruct (server_error_data_cases err name) as [[_ [data ->]] | [Hp ->]];
    eauto 10.
Qed.

Lemma handle_request_returned self jsonrpc id name params entry md w v w' :
  method_data self !! name = Some entry →
  schema_accepts entry params →
  fn_call (me_method entry) params md w = (Returned v, w') →
  _handle_request self (MkRequest jsonrpc id (Some name) (Some params)) md w
  = (Return (if is_None id then VNull
             else VDict (<["id" := id]> (<["result" := v]> (_fill_ver jsonrpc ∅)))),
     w').
Proof.
  intros Hm Hs Hf. unfold _handle_request.
  unfold mbind at 1, ST_bind at 1.
  rewrite (call_method_invoke _ _ _ _ _ _ _ _ Hm Hs),
    (try_method_returned _ _ _ _ _ _ _ Hf).
  cbn. by destruct (is_None id).
Qed.

Lemma handle_request_raised
    self jsonrpc id name params entry md w err w' data :
  method_data self !! name = Some entry →
  schema_accepts entry params →
  fn_call (me_method entry) params md w = (Raised err, w') →
  server_error_data err name = Return data →
  _handle_request self (MkRequest jsonrpc id (Some name) (Some params)) md w
  = (Raise (RpcExc (MkRpcError ServerError data)), w').
Proof.
  intros Hm Hs Hf Hd. unfold _handle_request.
  unfold mbind at 1, ST_bind at 1.
  by rewrite (call_method_invoke _ _ _ _ _ _ _ _ Hm Hs),
    (try_method_raised _ _ _ _ _ _ _ _ Hf Hd).
Qed.

Lemma handle_request_type_error
    self jsonrpc id name params entry md w err w' :
  method_data self !! name = Some entry →
  schema_accepts entry params →
  fn_call (me_method entry) params md w = (Raised err, w') →
  ¬ plain_message err →
  _handle_request self (MkRequest jsonrpc id (Some name) (Some params)) md w
  = (Raise TypeError, w').
Proof.
  intros Hm Hs Hf Hp. unfold _handle_request.
  unfold mbind at 1, ST_bind at 1.
  by rewrite (call_method_invoke _ _ _ _ _ _ _ _ Hm Hs),
    (try_method_type_error _ _ _ _ _ _ _ Hf Hp).
Qed.

Lemma handle_request_invalid self jsonrpc id name params entry md w msg :
  method_data self !! name = Some entry →
  truthy (me_schema entry) = true →
  jsonschema_validate params (me_schema entry) = Some msg →
  _handle_request self (MkRequest jsonrpc id (Some name) (Some params)) md w
  = (Raise (ValidationError msg), w).
Proof.
  intros Hm Ht Hs. unfold _handle_request.
  unfold mbind at 1, ST_bind at 1.
  by rewrite (call_method_invalid _ _ _ _ _ _ _ _ _ Hm Ht Hs).
Qed.

(** ** Single requests *)

(** [call_py] on a non-empty dictionary: normalize, dispatch, and resolve
    what was raised against the request dictionary as normalization left
    it. *)
Lemma call_py_single_ok self rdata md w request :
  _fill_request self (VDict rdata) _get_default_vals = (Return tt, request) →
  call_py self (VDict rdata) md w
  = match _handle_request self request md w with
    | (Return v, w') => (Return v, w')
    | (Raise (RpcExc e), w') =>
        (Return (_get_err e (req_id request)
                   (if bool_decide (err_class e = InvalidRequestError)
                    then VerTuple DEFAULT_JSONRPC else req_jsonrpc request)), w')
    | (Raise (ValidationError msg), w') =>
        (Return (_invalid_params_response msg (req_id request)
                   (req_jsonrpc request)), w')
    | (Raise e, w') => (Raise e, w')
    end.
Proof.
  intros Hf. unfold call_py, call_py_body. cbn [isinstance_dict andb].
  assert (truthy (VDict rdata) = true) as ->.
  { apply fill_request_return in Hf
      as (d & id & ver & m & p & [= <-] & _ & _ & [Hm _]%get_method_return & _).
    by eapply truthy_dict_lookup. }
  rewrite Hf. unfold try_except.
  destruct (_handle_request self request md w) as [[v|[e|msg|k|]] w']; try done.
  by case_bool_decide.
Qed.

Lemma call_py_single_invalid self rdata md w data request key v :
  rdata !! key = Some v →
  _fill_request self (VDict rdata) _get_default_vals
  = (Raise (InvalidRequest data), request) →
  call_py self (VDict rdata) md w
  = (Return (VDict (<["error" := dumps (MkRpcError InvalidRequestError data)]>
                    (<["jsonrpc" := VStr "2.0"]> {["id" := req_id request]}))), w).
Proof.
  intros Hk Hf. unfold call_py, call_py_body. cbn [isinstance_dict andb].
  rewrite (truthy_dict_lookup _ _ _ Hk), Hf.
  unfold try_except, raise, InvalidRequest. cbn [err_class].
  rewrite bool_decide_eq_true_2 by done. unfold mret, ST_ret.
  by rewrite get_err_visible by auto.
Qed.

(** ** Batch entries *)

Lemma batch_fill_ok self v requests responds u request :
  _fill_request self v _get_default_vals = (Return u, request) →
  batch_fill self v (requests, responds)
  = Return (requests ++ [request], responds).
Proof. intros Hf. unfold batch_fill. by rewrite Hf. Qed.

Lemma batch_fill_error self v requests responds e request :
  _fill_request self v _get_default_vals = (Raise (RpcExc e), request) →
  batch_fill self v (requests, responds)
  = Return (requests,
            if is_None (_get_err e (req_id request) (VerTuple DEFAULT_JSONRPC))
            then responds
            else responds ++ [_get_err e (req_id request) (VerTuple DEFAULT_JSONRPC)]).
Proof.
  intros Hf. unfold batch_fill. rewrite Hf, truthy_get_err.
  destruct (is_None _); by case_bool_decide.
Qed.

Lemma batch_handle_answer self md request responds w respond w' :
  _handle_request self request md w = (Return (VDict respond), w') →
  batch_handle self md request responds w
  = (Return (responds ++ [VDict respond]), w').
Proof. intros Hh. unfold batch_handle. st_unfold. cbn beta. by rewrite Hh. Qed.

Lemma batch_handle_silent self md request responds w w' :
  _handle_request self request md w = (Return VNull, w') →
  batch_handle self md request responds w = (Return responds, w').
Proof. intros Hh. unfold batch_handle. st_unfold. cbn beta. by rewrite Hh. Qed.

Lemma batch_handle_error self md request responds w e w' :
  _handle_request self request md w = (Raise (RpcExc e), w') →
  batch_handle self md request responds w
  = (Return (if is_None (_get_err e (req_id request) (req_jsonrpc request))
             then responds
             else responds ++ [_get_err e (req_id request) (req_jsonrpc request)]),
     w').
Proof.
  intros Hh. unfold batch_handle. st_unfold. cbn beta. rewrite Hh.
  by destruct (is_None _).
Qed.

Lemma batch_handle_invalid self md request responds w msg w' :
  _handle_request self request md w = (Raise (ValidationError msg), w') →
  batch_handle self md request responds w = (Raise (ValidationError msg), w').
Proof. intros Hh. unfold batch_handle. st_unfold. cbn beta. by rewrite Hh. Qed.

Lemma batch_handle_type_error self md request responds w w' :
  _handle_request self request md w = (Raise TypeError, w') →
  batch_handle self md request responds w = (Raise TypeError, w').
Proof. intros Hh. unfold batch_handle. st_unfold. cbn beta. by rewrite Hh. Qed.

End Dispatcher.

(** ** Claims on single calls *)

Section Calls.
Context {World : Type} `{!JsonSchema} `{!JsonCodec}.
Implicit Types (self : JSONRPCService World) (rdata : gmap string Value)
  (w : World).

(** C4. A payload that fails to decode makes [call] return one
    serialized error response, with code -32700, a null [id] and the
    default dialect's stamp; it is never [None]. *)
Theorem decode_failure_parse_error self payload md w msg :
  json_loads payload = inr msg →
  call self payload md w
  = (Return (Some (json_dumps (VDict
       {[ "error" := VDict {[ "data" := details msg;
                              "message" := VStr "Parse error";
                              "code" := VInt (-32700) ]};
          "jsonrpc" := VStr "2.0";
          "id" := VNull ]}))), w).
Proof. intros Hl. unfold call. by rewrite Hl. Qed.

(** C6. A request with an [id] that passes normalization and names a
    handler registered without schema, the handler returning [v], is
    answered by exactly [v] under [result], the request's [id], the stamp
    of the request's dialect, and no [error]; as the entry of a batch it
    contributes that same response. *)
Theorem result_response self rdata md w id ver name entry params v w' :
  rdata !! "id" = Some id → id_type_ok id →
  _get_jsonrpc rdata = Return ver →
  rdata !! "method" = Some (VStr name) →
  method_data self !! name = Some entry →
  me_schema entry = VNull →
  _get_params rdata = Return params →
  fn_call (me_method entry) params md w = (Returned v, w') →
  ∃ respond : gmap string Value,
    call_py self (VDict rdata) md w = (Return (VDict respond), w')
    ∧ respond !! "result" = Some v
    ∧ respond !! "id" = Some id
    ∧ respond !! "error" = None
    ∧ (ver = (2, 0)
       ∧ respond = {[ "id" := id; "result" := v; "jsonrpc" := VStr "2.0" ]}
       ∨ ver = (1, 1)
         ∧ respond = {[ "id" := id; "result" := v; "version" := VStr "1.1" ]})
    ∧ (∀ requests responds,
         batch_fill self (VDict rdata) (requests, responds)
         = Return (requests ++ [MkRequest (VerTuple ver) id (Some name) (Some params)],
                   responds))
    ∧ (∀ responds,
         batch_handle self md
           (MkRequest (VerTuple ver) id (Some name) (Some params)) responds w
         = (Return (responds ++ [VDict respond]), w')).
Proof.
  intros Hi Hok Hv Hm He Hs Hp Hf.
  pose proof (fill_request_ok self rdata _get_default_vals id ver name params
                (get_id_present _ _ Hi Hok) Hv
                (get_method_ok _ _ _ Hm (mk_is_Some _ _ He)) Hp) as Hfill.
  pose proof (handle_request_returned self (VerTuple ver) id name params entry
                md w v w' He (or_introl (f_equal truthy Hs)) Hf) as Hh.
  rewrite (id_type_ok_not_None _ Hok) in Hh.
  rewrite (call_py_single_ok _ _ _ _ _ Hfill), Hh.
  eexists. split; [reflexivity|].
  assert (∀ A B C D E F : Prop, A → B → C → D → E ∧ F → A ∧ B ∧ C ∧ D ∧ E ∧ F)
    as Hand by tauto.
  apply Hand; clear Hand.
  - by rewrite lookup_insert_ne, lookup_insert_eq.
  - by rewrite lookup_insert_eq.
  - rewrite !lookup_insert_ne, fill_ver_lookup by done. apply lookup_empty.
  - destruct (get_jsonrpc_return _ _ Hv) as [-> | ->];
      [left; rewrite fill_ver_2_0 | right; rewrite fill_ver_1_1];
      by rewrite insert_empty.
  - split.
    + intros requests responds. by apply batch_fill_ok with tt.
    + intros responds. by apply batch_handle_answer.
Qed.

(** When the handler of a request with an [id] raises an exception with a
    plain message, the caller gets an error response with code -32000
    whose data holds the name of the exception's class (followed by its
    message when it has one) under [details] and the called method's name
    under [method]; [call_py] and [call] return.  As the entry of a batch
    the request contributes that same response. *)
Lemma handler_exception_server_error
    self rdata md w id ver name entry params err w' :
  rdata !! "id" = Some id → id_type_ok id →
  _get_jsonrpc rdata = Return ver →
  rdata !! "method" = Some (VStr name) →
  method_data self !! name = Some entry →
  _get_params rdata = Return params →
  schema_accepts entry params →
  fn_call (me_method entry) params md w = (Raised err, w') →
  plain_message err →
  ∃ (respond : gmap string Value) (text : string),
    call_py self (VDict rdata) md w = (Return (VDict respond), w')
    ∧ (∀ payload, json_loads payload = inl (VDict rdata) →
         call self payload md w
         = (Return (Some (json_dumps (VDict respond))), w'))
    ∧ respond !! "error"
      = Some (VDict {[ "data" := VDict {[ "method" := VStr name;
                                          "details" := VStr text ]};
                       "message" := VStr "Server error";
                       "code" := VInt (-32000) ]})
    ∧ respond !! "id" = Some id
    ∧ respond !! "result" = None
    ∧ (exc_message err = None → text = exc_class_name err)
    ∧ (∀ m, exc_message err = Some (VStr m) →
            text = exc_class_name err +:+ ": " +:+ m)
    ∧ (ver = (2, 0) ∧ respond !! "jsonrpc" = Some (VStr "2.0")
                    ∧ respond !! "version" = None
       ∨ ver = (1, 1) ∧ respond !! "version" = Some (VStr "1.1")
                      ∧ respond !! "jsonrpc" = None)
    ∧ (∀ requests responds,
         batch_fill self (VDict rdata) (requests, responds)
         = Return (requests ++ [MkRequest (VerTuple ver) id (Some name) (Some params)],
                   responds))
    ∧ (∀ responds,
         batch_handle self md
           (MkRequest (VerTuple ver) id (Some name) (Some params)) responds w
         = (Return (responds ++ [VDict respond]), w')).
Proof.
  intros Hi Hok Hv Hm He Hp Hs Hf Hplain.
  destruct (server_error_data_plain err name Hplain) as (text & Hd & Ht1 & Ht2).
  pose proof (fill_request_ok self rdata _get_default_vals id ver name params
                (get_id_present _ _ Hi Hok) Hv
                (get_method_ok _ _ _ Hm (mk_is_Some _ _ He)) Hp) as Hfill.
  pose proof (handle_request_raised self (VerTuple ver) id name params entry
                md w err w' _ He Hs Hf Hd) as Hh.
  set (data := VDict (<["method" := VStr name]> {["details" := VStr text]}))
    in *.
  pose proof (get_err_visible (MkRpcError ServerError data) id (VerTuple ver)
                (or_intror (or_intror (id_type_ok_not_null _ Hok)))) as Hge.
  assert (call_py self (VDict rdata) md w
          = (Return (VDict (<["error" := dumps (MkRpcError ServerError data)]>
                              (_fill_ver (VerTuple ver) {["id" := id]}))), w'))
    as Hcall.
  { rewrite (call_py_single_ok _ _ _ _ _ Hfill), Hh.
    cbn [err_class req_id req_jsonrpc].
    rewrite bool_decide_eq_false_2 by done. by rewrite Hge. }
  eexists _, text.
  split; [exact Hcall|].
  assert (∀ A B C D E F G H I : Prop,
            A → B → C → D → E → F → G → H ∧ I →
            A ∧ B ∧ C ∧ D ∧ E ∧ F ∧ G ∧ H ∧ I) as Hand by tauto.
  apply Hand; clear Hand.
  - intros payload Hl. unfold call. rewrite Hl. st_unfold. cbn beta.
    by rewrite Hcall.
  - by rewrite lookup_insert_eq.
  - rewrite lookup_insert_ne, fill_ver_lookup by done. apply lookup_singleton_eq.
  - rewrite lookup_insert_ne, fill_ver_lookup by done. apply lookup_singleton_ne.
    done.
  - done.
  - done.
  - destruct (get_jsonrpc_return _ _ Hv) as [-> | ->];
      [left; rewrite fill_ver_2_0 | right; rewrite fill_ver_1_1];
      (split; [done|]); split.
    + by rewrite lookup_insert_ne, lookup_insert_eq.
    + by rewrite !lookup_insert_ne, lookup_singleton_ne.
    + by rewrite lookup_insert_ne, lookup_insert_eq.
    + by rewrite !lookup_insert_ne, lookup_singleton_ne.
  - split.
    + intros requests responds. by apply batch_fill_ok with tt.
    + intros responds. rewrite (batch_handle_error _ _ _ _ _ _ _ Hh).
      cbn [req_id req_jsonrpc]. by rewrite Hge.
Qed.

End Calls.

Section Envelope.
Context {World : Type} `{!JsonSchema}.
Implicit Types (self : JSONRPCService World) (rdata : gmap string Value)
  (w : World).

(** C9. A request whose [id] key holds null is not a notification:
    extraction of the [id] raises [InvalidRequest], the request dictionary
    keeps its default [id], and the error response, alone or as the entry
    of a batch, carries a null [id].  The notification marker comes from
    an absent key only. *)
Theorem null_id_invalid_request self rdata md w requests responds :
  rdata !! "id" = Some VNull →
  let respond : Value :=
    VDict {[ "error" := VDict {[ "data" := details "Invalid type for the `id` field";
                                 "message" := VStr "Invalid Request";
                                 "code" := VInt (-32600) ]};
             "jsonrpc" := VStr "2.0";
             "id" := VNull ]} in
  _get_id rdata
  = Raise (InvalidRequest (details "Invalid type for the `id` field"))
  ∧ _fill_request self (VDict rdata) _get_default_vals
    = (Raise (InvalidRequest (details "Invalid type for the `id` field")),
       _get_default_vals)
  ∧ call_py self (VDict rdata) md w = (Return respond, w)
  ∧ batch_fill self (VDict rdata) (requests, responds)
    = Return (requests, responds ++ [respond])
  ∧ (∀ rdata', _get_id rdata' = Return VNull ↔ rdata' !! "id" = None).
Proof.
  intros Hi respond.
  assert (_get_id rdata
          = Raise (InvalidRequest (details "Invalid type for the `id` field")))
    as Hg.
  { apply (get_id_invalid _ _ Hi). by intros [[? [=]] | [[? [=]] | [? [=]]]]. }
  pose proof (fill_request_id_raise self rdata _get_default_vals _ Hg) as Hf.
  split_and!; try done.
  - by rewrite (call_py_single_invalid _ _ _ _ _ _ _ _ Hi Hf).
  - unfold batch_fill. by rewrite Hf.
  - apply get_id_None.
Qed.

(** C10. The empty dictionary is answered like a top-level value that is
    neither a dictionary nor a list: [InvalidRequest] with the default
    message, no [data], a null [id]; the normalizer, which would report
    the missing version, is not consulted. *)
Theorem empty_mapping_invalid_request self md w :
  let respond : Value :=
    VDict {[ "error" := VDict {[ "message" := VStr "Invalid Request";
                                 "code" := VInt (-32600) ]};
             "jsonrpc" := VStr "2.0";
             "id" := VNull ]} in
  call_py self (VDict ∅) md w = (Return respond, w)
  ∧ (∀ v, isinstance_dict v = false → isinstance_list v = false →
          call_py self v md w = (Return respond, w))
  ∧ _fill_request self (VDict ∅) _get_default_vals
    = (Raise (InvalidRequest (details "Missing JSON-RPC version")),
       _get_default_vals).
Proof.
  intros respond. split_and!; try done.
  intros v Hd Hl. by destruct v.
Qed.

End Envelope.

(** ** Batches *)

Section Batch.
Context {World : Type} `{!JsonSchema}.
Implicit Types (self : JSONRPCService World) (rdata : gmap string Value)
  (w : World) (request : Request).

Lemma fill_request_filled self v request0 u request :
  _fill_request self v request0 = (Return u, request) → filled self request.
Proof.
  intros (rdata & id & ver & name & params & -> & _ & Hv & Hm & _ & ->)
    %fill_request_return.
  apply get_method_return in Hm as [_ [entry He]].
  apply get_jsonrpc_return in Hv.
  by exists ver, id, name, params, entry.
Qed.

(** Dispatch of a filled request returns a response (nothing for a
    notification), or raises [ServerError], or raises the validator's
    [ValidationError] before the handler ran, or raises the [TypeError] of
    a handler's exception whose message is not a string. *)
Lemma handle_request_cases self request md w :
  filled self request →
  (∃ w', _handle_request self request md w = (Return VNull, w')
         ∧ req_id request = VNull)
  ∨ (∃ v w', _handle_request self request md w
             = (Return (VDict (<["id" := req_id request]>
                                 (<["result" := v]>
                                    (_fill_ver (req_jsonrpc request) ∅)))), w')
             ∧ req_id request ≠ VNull)
  ∨ (∃ data w', _handle_request self request md w
                = (Raise (RpcExc (MkRpcError ServerError data)), w'))
  ∨ (∃ msg, _handle_request self request md w = (Raise (ValidationError msg), w))
  ∨ (∃ name entry params err w',
       _handle_request self request md w = (Raise TypeError, w')
       ∧ req_method request = Some name
       ∧ req_params request = Some params
       ∧ method_data self !! name = Some entry
       ∧ fn_call (me_method entry) params md w = (Raised err, w')
       ∧ ¬ plain_message err).
Proof.
  intros (ver & id & name & params & entry & -> & _ & He).
  assert (schema_accepts entry params ∨
          ∃ msg, truthy (me_schema entry) = true
                 ∧ jsonschema_validate params (me_schema entry) = Some msg)
    as [Hs | (msg & Ht & Hs)].
  { unfold schema_accepts. destruct (truthy (me_schema entry)); [|by left; left].
    destruct (jsonschema_validate params (me_schema entry)) as [msg|];
      [right; by exists msg | by left; right]. }
  2:{ do 3 right; left. exists msg. by apply handle_request_invalid with entry. }
  destruct (fn_call (me_method entry) params md w) as [[v|err] w'] eqn:Hf.
  - rewrite (handle_request_returned _ _ _ _ _ _ _ _ _ _ He Hs Hf).
    cbn [req_id req_jsonrpc]. destruct id; cbn [is_None]; eauto 10.
  - destruct (server_error_data_cases err name) as [[_ [data Hd]] | [Hp _]].
    + rewrite (handle_request_raised _ _ _ _ _ _ _ _ _ _ _ He Hs Hf Hd).
      eauto 10.
    + do 4 right. exists name, entry, params, err, w'.
      by rewrite (handle_request_type_error _ _ _ _ _ _ _ _ _ _ He Hs Hf Hp).
Qed.

(** The first loop never raises: an entry adds its request, or one error
    response, or (an unknown method called as a notification) nothing. *)
Lemma batch_fill_cases self v requests responds :
  (∃ request, filled self request
              ∧ batch_fill self v (requests, responds)
                = Return (requests ++ [request], responds))
  ∨ batch_fill self v (requests, responds) = Return (requests, responds)
  ∨ (∃ respond : gmap string Value,
       batch_fill self v (requests, responds)
       = Return (requests, responds ++ [VDict respond])
       ∧ is_Some (respond !! "error")).
Proof.
  destruct (_fill_request self v _get_default_vals) as [[u|e] request] eqn:Hf.
  { left. exists request. split; [by eapply fill_request_filled|].
    by apply batch_fill_ok with u. }
  right.
  assert (∃ e', e = RpcExc e') as [e' ->].
  { apply fill_request_raise in Hf as [d [-> | ->]]; eauto. }
  rewrite (batch_fill_error _ _ _ _ _ _ Hf).
  destruct (get_err_cases e' (req_id request) (VerTuple DEFAULT_JSONRPC))
    as [-> | ->]; cbn [is_None]; [by left|].
  right. eexists. split; [done|].
  rewrite lookup_insert_eq. by eexists.
Qed.

Lemma batch_fill_loop_returns self l requests responds :
  Forall (filled self) requests →
  ∃ requests' responds',
    batch_fill_loop self l (requests, responds) = Return (requests', responds')
    ∧ Forall (filled self) requests'.
Proof.
  revert requests responds.
  induction l as [|v l IH]; intros requests responds Hq; cbn [batch_fill_loop].
  { by exists requests, responds. }
  unfold mbind, Result_bind.
  destruct (batch_fill_cases self v requests responds)
    as [(request & Hr & ->) | [-> | (respond & -> & _)]]; apply IH; try done.
  apply Forall_app. by split; [|apply Forall_singleton].
Qed.

(** One round of the second loop appends at most one response, which
    carries the [id] of its request, and lets nothing escape but a
    [ValidationError] or a [TypeError]. *)
Lemma batch_handle_cases self md request responds w :
  filled self request →
  (∃ w', batch_handle self md request responds w = (Return responds, w'))
  ∨ (∃ (respond : gmap string Value) w',
       batch_handle self md request responds w
       = (Return (responds ++ [VDict respond]), w')
       ∧ respond !! "id" = Some (req_id request)
       ∧ req_id request ≠ VNull)
  ∨ (∃ msg, batch_handle self md request responds w
            = (Raise (ValidationError msg), w))
  ∨ (∃ w', batch_handle self md request responds w = (Raise TypeError, w')
           ∧ unplain_handler self md).
Proof.
  intros Hq. unfold batch_handle. st_unfold. cbn beta.
  destruct (handle_request_cases self request md w Hq)
    as [(w' & -> & Hid) | [(v & w' & -> & Hid) | [(data & w' & ->)
       | [(msg & ->)
         | (name & entry & params & err & w' & -> & _ & _ & He & Hf & Hp)]]]].
  - left. by exists w'.
  - right; left. eexists _, w'. cbn [is_None negb]. split; [reflexivity|].
    split; [by rewrite lookup_insert_eq | done].
  - destruct (get_err_cases (MkRpcError ServerError data) (req_id request)
                (req_jsonrpc request)) as [E | E].
    + left. exists w'. by rewrite E.
    + right; left. eexists _, w'. rewrite E.
      cbn [is_None negb]. split; [reflexivity|]. split; [by eapply get_err_id|].
      intros Hn. rewrite Hn in E. discriminate E.
  - right; right; left. by exists msg.
  - right; right; right. exists w'. split; [done|].
    by exists name, entry, params, w, err, w'.
Qed.

(** The second loop returns the collected responses, or stops at the
    first [ValidationError] or [TypeError]. *)
Lemma batch_handle_loop_cases self md requests responds w :
  Forall (filled self) requests →
  (∃ responds' w',
     batch_handle_loop self md requests responds w = (Return responds', w'))
  ∨ (∃ msg w',
       batch_handle_loop self md requests responds w
       = (Raise (ValidationError msg), w'))
  ∨ (∃ w', batch_handle_loop self md requests responds w = (Raise TypeError, w')
           ∧ unplain_handler self md).
Proof.
  intros Hq. revert responds w.
  induction Hq as [|request requests Hr _ IH]; intros responds w;
    cbn [batch_handle_loop].
  { left. by exists responds, w. }
  st_unfold. cbn beta.
  destruct (batch_handle_cases self md request responds w Hr)
    as [(w' & ->) | [(respond & w' & -> & _) | [(msg & ->) | (w' & -> & Hu)]]];
    [apply IH | apply IH | |].
  - right; left. by exists msg, w.
  - right; right. by exists w'.
Qed.


End Batch.

Section BatchOutput.
Context {World : Type} `{!JsonSchema} `{!JsonCodec}.
Implicit Types (self : JSONRPCService World) (w : World) (request : Request).

(** The empty batch is answered by one [InvalidRequest] response with a
    null [id]. *)
Lemma call_py_empty_batch self md w :
  call_py self (VList []) md w
  = (Return (VDict
       {[ "error" := VDict {[ "data" := details "Batch request array is empty";
                              "message" := VStr "Invalid Request";
                              "code" := VInt (-32600) ]};
          "jsonrpc" := VStr "2.0";
          "id" := VNull ]}), w).
Proof. reflexivity. Qed.

(** A dispatched notification adds no response; what it can do to the
    batch is to raise the validator's error, or the [TypeError] of its
    handler's exception. *)
Lemma batch_handle_notification self md request responds w :
  filled self request → req_id request = VNull →
  (∃ w', batch_handle self md request responds w = (Return responds, w'))
  ∨ (∃ msg, batch_handle self md request responds w
            = (Raise (ValidationError msg), w))
  ∨ (∃ w', batch_handle self md request responds w = (Raise TypeError, w')).
Proof.
  intros Hq Hid.
  destruct (batch_handle_cases self md request responds w Hq)
    as [? | [(respond & w' & _ & _ & Hn) | [? | (w' & ? & _)]]]; eauto.
  by destruct Hn.
Qed.

(** A batch call answers with nothing, with one response dictionary, or
    with a non-empty list; never with an empty list. *)
Lemma call_py_batch_shape self l md w respond w' :
  call_py self (VList l) md w = (Return respond, w') →
  respond = VNull
  ∨ (∃ d, respond = VDict d)
  ∨ (∃ r rs, respond = VList (r :: rs)).
Proof.
  unfold call_py, call_py_body. cbn [isinstance_dict andb].
  destruct l as [|v l].
  { cbn. intros [= <- _]. right; left. by eexists. }
  cbn [truthy length Nat.eqb negb]. st_unfold. cbn beta.
  destruct (batch_fill_loop_returns self (v :: l) [] [] (Forall_nil_2 _))
    as (requests & responds & -> & Hq).
  destruct (batch_handle_loop_cases self md requests responds w Hq)
    as [(responds' & w1 & ->) | [(msg & w1 & ->) | (w1 & -> & _)]].
  - destruct responds' as [|r rs]; cbn; intros [= <- _]; eauto.
  - intros [= <- _]. right; left. by eexists.
  - discriminate.
Qed.

End BatchOutput.

(** ** Batches as a whole *)

Section BatchAnswer.
Context {World : Type} `{!JsonSchema}.
Implicit Types (self : JSONRPCService World) (w : World) (request : Request).

(** The first loop treats every entry on its own: what an entry adds does
    not depend on what was collected before it. *)
Lemma batch_fill_acc self v requests responds rq rs :
  batch_fill self v ([], []) = Return (rq, rs) →
  batch_fill self v (requests, responds) = Return (requests ++ rq, responds ++ rs).
Proof.
  unfold batch_fill.
  destruct (_fill_request self v _get_default_vals) as [[u|[e|msg|k|]] request];
    try discriminate.
  - intros [= <- <-]. by rewrite app_nil_r.
  - destruct (truthy _); case_bool_decide; intros [= <- <-];
      by rewrite ?app_nil_r.
Qed.

Lemma batch_fill_loop_acc self l requests responds rq rs :
  batch_fill_loop self l ([], []) = Return (rq, rs) →
  batch_fill_loop self l (requests, responds)
  = Return (requests ++ rq, responds ++ rs).
Proof.
  revert requests responds rq rs.
  induction l as [|v l IH]; intros requests responds rq rs; cbn [batch_fill_loop].
  { intros [= <- <-]. by rewrite !app_nil_r. }
  unfold mbind, Result_bind.
  destruct (batch_fill self v ([], [])) as [[rq1 rs1]|e] eqn:H1; [|discriminate].
  rewrite (batch_fill_acc _ _ requests responds _ _ H1).
  destruct (batch_fill_loop self l ([], [])) as [[rq2 rs2]|e] eqn:H2.
  - rewrite (IH rq1 rs1 rq2 rs2 eq_refl). intros [= <- <-].
    rewrite (IH (requests ++ rq1) (responds ++ rs1) rq2 rs2 eq_refl).
    by rewrite !app_assoc.
  - destruct (batch_fill_loop_returns self l [] [] (Forall_nil_2 _))
      as (? & ? & E & _). rewrite E in H2. discriminate.
Qed.

(** Normalization of a batch is the concatenation of the normalizations
    of its parts. *)
Lemma batch_fill_loop_app self l1 l2 rq1 rs1 rq2 rs2 :
  batch_fill_loop self l1 ([], []) = Return (rq1, rs1) →
  batch_fill_loop self l2 ([], []) = Return (rq2, rs2) →
  batch_fill_loop self (l1 ++ l2) ([], []) = Return (rq1 ++ rq2, rs1 ++ rs2).
Proof.
  intros H1 H2.
  assert (∀ acc acc', batch_fill_loop self l1 acc = Return acc' →
            batch_fill_loop self (l1 ++ l2) acc = batch_fill_loop self l2 acc')
    as Happ.
  { clear. induction l1 as [|v l1 IH]; intros acc acc'; cbn [batch_fill_loop app].
    - by intros [= ->].
    - unfold mbind, Result_bind.
      destruct (batch_fill self v acc); [apply IH | discriminate]. }
  rewrite (Happ _ _ H1). by apply batch_fill_loop_acc.
Qed.

(** A batch whose dispatch loop runs to its end is answered by the
    collected responses, or by nothing when there are none. *)
Lemma call_py_batch_completed self v l md w requests responds responds' w' :
  batch_fill_loop self (v :: l) ([], []) = Return (requests, responds) →
  batch_handle_loop self md requests responds w = (Return responds', w') →
  call_py self (VList (v :: l)) md w
  = (Return (match responds' with [] => VNull | _ => VList responds' end), w').
Proof.
  intros Hf Hh. unfold call_py, call_py_body.
  cbn [isinstance_dict andb truthy length Nat.eqb negb].
  st_unfold. cbn beta. rewrite Hf, Hh. by destruct responds'.
Qed.

(** A batch whose dispatch loop meets a schema failure is answered by one
    [InvalidParams] response with a null [id] and no version stamp. *)
Lemma call_py_batch_aborted self v l md w requests responds msg w' :
  batch_fill_loop self (v :: l) ([], []) = Return (requests, responds) →
  batch_handle_loop self md requests responds w
  = (Raise (ValidationError msg), w') →
  call_py self (VList (v :: l)) md w
  = (Return (VDict
       {[ "error" := VDict {[ "code" := VInt (-32602);
                              "data" := details msg;
                              "message" := VStr "Invalid params" ]};
          "id" := VNull ]}), w').
Proof.
  intros Hf Hh. unfold call_py, call_py_body.
  cbn [isinstance_dict andb truthy length Nat.eqb negb].
  st_unfold. cbn beta. by rewrite Hf, Hh.
Qed.

(** A batch whose dispatch loop is left by a [TypeError] is not answered:
    no clause of [call_py] catches it. *)
Lemma call_py_batch_type_error self v l md w requests responds w' :
  batch_fill_loop self (v :: l) ([], []) = Return (requests, responds) →
  batch_handle_loop self md requests responds w = (Raise TypeError, w') →
  call_py self (VList (v :: l)) md w = (Raise TypeError, w').
Proof.
  intros Hf Hh. unfold call_py, call_py_body.
  cbn [isinstance_dict andb truthy length Nat.eqb negb].
  st_unfold. cbn beta. by rewrite Hf, Hh.
Qed.

End BatchAnswer.

(** ** Notifications *)

Section Notifications.
Context {World : Type} `{!JsonSchema}.
Implicit Types (self : JSONRPCService World) (rdata : gmap string Value)
  (w : World).

Lemma call_py_single_raise self rdata md w e request key v :
  rdata !! key = Some v →
  _fill_request self (VDict rdata) _get_default_vals = (Raise (RpcExc e), request) →
  call_py self (VDict rdata) md w
  = (Return (_get_err e (req_id request)
               (if bool_decide (err_class e = InvalidRequestError)
                then VerTuple DEFAULT_JSONRPC else req_jsonrpc request)), w).
Proof.
  intros Hk Hf. unfold call_py, call_py_body. cbn [isinstance_dict andb].
  rewrite (truthy_dict_lookup _ _ _ Hk), Hf.
  unfold try_except, raise. by case_bool_decide.
Qed.


(** A notification to an unregistered method gives no output. *)
Lemma notification_method_not_found self rdata md w ver name :
  rdata !! "id" = None →
  _get_jsonrpc rdata = Return ver →
  rdata !! "method" = Some (VStr name) →
  method_data self !! name = None →
  call_py self (VDict rdata) md w = (Return VNull, w).
Proof.
  intros Hi Hv Hm He.
  rewrite (call_py_single_raise self rdata md w
             (MkRpcError MethodNotFoundError
                (VDict {["available_methods" := method_names self]}))
             (MkRequest (VerTuple ver) VNull None None) _ _ Hm); [done|].
  unfold _fill_request. st_unfold. cbn.
  by rewrite (get_id_absent _ Hi), Hv, (get_method_unknown _ _ _ Hm He).
Qed.

(** A malformed envelope without [id] is answered, with a null [id] and
    the default dialect's stamp. *)
Lemma notification_invalid_request self rdata md w data request key v :
  rdata !! "id" = None →
  rdata !! key = Some v →
  _fill_request self (VDict rdata) _get_default_vals
  = (Raise (InvalidRequest data), request) →
  call_py self (VDict rdata) md w
  = (Return (VDict (<["error" := dumps (MkRpcError InvalidRequestError data)]>
                      (<["jsonrpc" := VStr "2.0"]> {["id" := VNull]}))), w).
Proof.
  intros Hi Hk Hf.
  rewrite (call_py_single_invalid _ _ _ _ _ _ _ _ Hk Hf).
  assert (req_id request = VNull) as ->; [|done].
  revert Hf. unfold _fill_request. st_unfold. cbn.
  rewrite (get_id_absent _ Hi).
  destruct (_get_jsonrpc rdata); [|by intros [= _ <-]].
  destruct (_get_method self rdata); [|by intros [= _ <-]].
  destruct (_get_params rdata); [discriminate | by intros [= _ <-]].
Qed.

(** A notification whose params fail the schema of its method is
    answered all the same: [_invalid_params_response] does not look at the
    [id]. *)
Lemma notification_invalid_params self rdata md w ver name entry params msg :
  rdata !! "id" = None →
  _get_jsonrpc rdata = Return ver →
  rdata !! "method" = Some (VStr name) →
  method_data self !! name = Some entry →
  _get_params rdata = Return params →
  truthy (me_schema entry) = true →
  jsonschema_validate params (me_schema entry) = Some msg →
  call_py self (VDict rdata) md w
  = (Return (VDict
       (<["error" := VDict {[ "code" := VInt (-32602);
                              "data" := details msg;
                              "message" := VStr "Invalid params" ]}]>
          (_fill_ver (VerTuple ver) {["id" := VNull]}))), w).
Proof.
  intros Hi Hv Hm He Hp Ht Hs.
  pose proof (fill_request_ok self rdata _get_default_vals VNull ver name params
                (get_id_absent _ Hi) Hv
                (get_method_ok _ _ _ Hm (mk_is_Some _ _ He)) Hp) as Hfill.
  rewrite (call_py_single_ok _ _ _ _ _ Hfill).
  by rewrite (handle_request_invalid _ _ _ _ _ _ _ _ _ He Ht Hs).
Qed.

End Notifications.

(** ** The service at work *)

Section Evaluation.
Import Example.

(** C1. A batch of three calls with [id]s, the second of which fails the
    schema of its method: the answer is a single [InvalidParams] response
    with a null [id] and no version stamp.  The first handler has run (the
    log shows it) and its response is lost; the third entry is never
    dispatched. *)
Theorem batch_validation_failure_replaces_batch :
  call_py service
    (VList [request2 "hello" None (Some (VInt 1));
            request2 "configure" (Some (VList [VInt 3])) (Some (VInt 2));
            request2 "square" (Some (VList [VInt 3])) (Some (VInt 3))])
    VNull []
  = (Return (VDict
       {[ "error" := VDict {[ "code" := VInt (-32602);
                              "data" := details "[3] is not of type 'object'";
                              "message" := VStr "Invalid params" ]};
          "id" := VNull ]}),
     ["hello"]).
Proof. vm_compute. reflexivity. Qed.

(** The same batch with a raising handler in place of the schema failure:
    every entry is answered. *)
Lemma batch_server_error_isolated :
  call_py service
    (VList [request2 "hello" None (Some (VInt 1));
            request2 "broken_func" (Some (VList [VInt 3])) (Some (VInt 2));
            request2 "square" (Some (VList [VInt 3])) (Some (VInt 3))])
    VNull []
  = (Return (VList
       [VDict {[ "id" := VInt 1; "result" := VStr "Hello world!";
                 "jsonrpc" := VStr "2.0" ]};
        VDict {[ "error" := VDict {[ "data" := VDict {[ "method" := VStr "broken_func";
                                                        "details" := VStr "TypeError" ]};
                                     "message" := VStr "Server error";
                                     "code" := VInt (-32000) ]};
                 "jsonrpc" := VStr "2.0";
                 "id" := VInt 2 ]};
        VDict {[ "id" := VInt 3; "result" := VInt 9;
                 "jsonrpc" := VStr "2.0" ]}]),
     ["hello"; "broken_func"; "square"]).
Proof. vm_compute. reflexivity. Qed.

(** C2. A [params] field that holds null is rejected: the type of [None]
    is not among [(dict, list, None)]. *)
Theorem null_params_rejected :
  _get_params {[ "jsonrpc" := VStr "2.0"; "method" := VStr "hello";
                 "params" := VNull; "id" := VInt 1 ]}
  = Raise (InvalidRequest (details "Invalid type for the `params` field"))
  ∧ call_py service (request2 "hello" (Some VNull) (Some (VInt 1))) VNull []
    = (Return (VDict
         {[ "error" := VDict {[ "data" := details "Invalid type for the `params` field";
                                "message" := VStr "Invalid Request";
                                "code" := VInt (-32600) ]};
            "jsonrpc" := VStr "2.0";
            "id" := VInt 1 ]}),
       []).
Proof. split; vm_compute; reflexivity. Qed.

(** C3. A notification whose params fail the schema of its method is
    answered, with a null [id]. *)
Theorem notification_schema_failure_answered :
  call_py service (request2 "configure" (Some (VList [VInt 3])) None) VNull []
  = (Return (VDict
       {[ "error" := VDict {[ "code" := VInt (-32602);
                              "data" := details "[3] is not of type 'object'";
                              "message" := VStr "Invalid params" ]};
          "jsonrpc" := VStr "2.0";
          "id" := VNull ]}),
     []).
Proof. vm_compute. reflexivity. Qed.

(** The other error kinds of a notification give no output. *)
Lemma notification_other_errors_suppressed :
  call_py service (request2 "unknown" None None) VNull [] = (Return VNull, [])
  ∧ call_py service (request2 "broken_func" None None) VNull []
    = (Return VNull, ["broken_func"]).
Proof. split; vm_compute; reflexivity. Qed.

(** C7. A request with an [id] whose handler raises [JSONRPCError()], an
    exception whose [message] is [None]: the caller gets no response,
    [call_py] raises the [TypeError] of [': ' + None].  The handler has run
    (the log shows it).  As the second entry of a batch the request takes
    the response of the first entry with it. *)
Theorem handler_exception_escapes :
  call_py refusing_service (request2 "refusing" None (Some (VInt 1))) VNull []
  = (Raise TypeError, ["refusing"])
  ∧ call_py refusing_service
      (VList [request2 "hello" None (Some (VInt 1));
              request2 "refusing" None (Some (VInt 2))])
      VNull []
    = (Raise TypeError, ["hello"; "refusing"]).
Proof. split; vm_compute; reflexivity. Qed.

(** C8. A batch of two notifications, the second of which fails the
    schema of its method, is answered by an error response. *)
Theorem batch_of_notifications_answered :
  call_py service
    (VList [request2 "noop" None None;
            request2 "configure" (Some (VList [VInt 3])) None])
    VNull []
  = (Return (VDict
       {[ "error" := VDict {[ "code" := VInt (-32602);
                              "data" := details "[3] is not of type 'object'";
                              "message" := VStr "Invalid params" ]};
          "id" := VNull ]}),
     ["noop"]).
Proof. vm_compute. reflexivity. Qed.

(** A batch of notifications that pass their schemas gives no output. *)
Lemma batch_notifications_no_output :
  call_py service
    (VList [request2 "noop" None None;
            request2 "configure" (Some (VDict ∅)) None;
            request2 "broken_func" None None])
    VNull []
  = (Return VNull, ["noop"; "noop"; "broken_func"]).
Proof. vm_compute. reflexivity. Qed.

(** Three entries that are not dictionaries get three [InvalidRequest]
    responses. *)
Lemma batch_of_numbers :
  call service "[1, 2, 3]" VNull []
  = (Return (Some (json_dumps (VList (replicate 3 (VDict
       {[ "error" := VDict {[ "message" := VStr "Invalid Request";
                              "code" := VInt (-32600) ]};
          "jsonrpc" := VStr "2.0";
          "id" := VNull ]}))))), []).
Proof. vm_compute. reflexivity. Qed.

(** Six entries, one of them a notification: five responses, those of the
    entries that fail normalization first. *)
Lemma partially_valid_batch :
  answers
    (call_py service
       (VList [request2 "square" (Some (VList [VInt 2])) (Some (VStr "1"));
               request2 "noop" (Some (VList [VInt 7])) None;
               request2 "hello" None (Some (VStr "2"));
               VDict {[ "foo" := VStr "boo" ]};
               request2 "foo.get" (Some (VDict {[ "name" := VStr "myself" ]}))
                 (Some (VStr "5"));
               request2 "broken_func" (Some (VList [VInt 5])) (Some (VStr "9"))])
       VNull [])
  = Some [(Some VNull, None, Some (VInt (-32600)));
          (Some (VStr "5"), None, Some (VInt (-32601)));
          (Some (VStr "1"), Some (VInt 4), None);
          (Some (VStr "2"), Some (VStr "Hello world!"), None);
          (Some (VStr "9"), None, Some (VInt (-32000)))].
Proof. vm_compute. reflexivity. Qed.

End Evaluation.

(** ** The theorems at concrete requests *)

Section Witnesses.
Import Example.

Lemma get_jsonrpc_spec_witness :
  _get_jsonrpc (fields1 "hello" (VInt 7)) = Return (1, 1)
  ∧ _get_jsonrpc {[ "jsonrpc" := VStr "9999" ]}
    = Raise (InvalidRequest (details "Invalid JSON-RPC version"))
  ∧ _get_jsonrpc {[ "method" := VStr "noop" ]}
    = Raise (InvalidRequest (details "Missing JSON-RPC version")).
Proof.
  split_and!.
  - apply (proj1 (proj2 (get_jsonrpc_spec (fields1 "hello" (VInt 7))))).
    split; [discriminate | reflexivity].
  - apply (proj1 (proj2 (proj2 (get_jsonrpc_spec {[ "jsonrpc" := VStr "9999" ]})))).
    split_and!; [discriminate | discriminate | left; by eexists].
  - apply (proj2 (proj2 (proj2 (get_jsonrpc_spec {[ "method" := VStr "noop" ]})))).
    split; reflexivity.
Defined.

Lemma decode_failure_parse_error_witness :
  json_loads "" = inr "Expecting value: line 1 column 1 (char 0)"
  ∧ call service "" VNull []
    = (Return (Some (json_dumps (VDict
         {[ "error" := VDict {[ "data" := details "Expecting value: line 1 column 1 (char 0)";
                                "message" := VStr "Parse error";
                                "code" := VInt (-32700) ]};
            "jsonrpc" := VStr "2.0";
            "id" := VNull ]}))), []).
Proof.
  split; [reflexivity|].
  apply (decode_failure_parse_error service "" VNull []). reflexivity.
Defined.

Lemma result_response_witness :
  ∃ respond : gmap string Value,
    call_py service (request2 "square" (Some (VList [VInt 3])) (Some (VStr "a")))
      VNull []
    = (Return (VDict respond), ["square"])
    ∧ respond !! "result" = Some (VInt 9)
    ∧ respond !! "id" = Some (VStr "a")
    ∧ respond !! "error" = None
    ∧ ((2, 0) = (2, 0)
       ∧ respond = {[ "id" := VStr "a"; "result" := VInt 9; "jsonrpc" := VStr "2.0" ]}
       ∨ (2, 0) = (1, 1)
         ∧ respond = {[ "id" := VStr "a"; "result" := VInt 9; "version" := VStr "1.1" ]})
    ∧ (∀ requests responds,
         batch_fill service
           (request2 "square" (Some (VList [VInt 3])) (Some (VStr "a")))
           (requests, responds)
         = Return (requests ++ [MkRequest (VerTuple (2, 0)) (VStr "a")
                                  (Some "square") (Some (VList [VInt 3]))],
                   responds))
    ∧ (∀ responds,
         batch_handle service VNull
           (MkRequest (VerTuple (2, 0)) (VStr "a") (Some "square")
              (Some (VList [VInt 3]))) responds []
         = (Return (responds ++ [VDict respond]), ["square"])).
Proof.
  apply (result_response service
           (fields2 "square" (Some (VList [VInt 3])) (Some (VStr "a")))
           VNull [] (VStr "a") (2, 0) "square" (MkMethodEntry square VNull)
           (VList [VInt 3]) (VInt 9) ["square"]).
  - reflexivity.
  - left. by exists "a".
  - reflexivity.
  - reflexivity.
  - reflexivity.
  - reflexivity.
  - reflexivity.
  - reflexivity.
Defined.

Lemma handler_exception_server_error_witness :
  ∃ (respond : gmap string Value) (text : string),
    call_py service (VDict (fields1 "rejecting" (VInt 7))) VNull []
    = (Return (VDict respond), ["rejecting"])
    ∧ (∀ payload, json_loads payload = inl (VDict (fields1 "rejecting" (VInt 7))) →
         call service payload VNull []
         = (Return (Some (json_dumps (VDict respond))), ["rejecting"]))
    ∧ respond !! "error"
      = Some (VDict {[ "data" := VDict {[ "method" := VStr "rejecting";
                                          "details" := VStr text ]};
                       "message" := VStr "Server error";
                       "code" := VInt (-32000) ]})
    ∧ respond !! "id" = Some (VInt 7)
    ∧ respond !! "result" = None
    ∧ (Some (VStr "not today") = None → text = "Rejected")
    ∧ (∀ m, Some (VStr "not today") = Some (VStr m) →
            text = "Rejected" +:+ ": " +:+ m)
    ∧ ((1, 1) = (2, 0) ∧ respond !! "jsonrpc" = Some (VStr "2.0")
                       ∧ respond !! "version" = None
       ∨ (1, 1) = (1, 1) ∧ respond !! "version" = Some (VStr "1.1")
                         ∧ respond !! "jsonrpc" = None)
    ∧ (∀ requests responds,
         batch_fill service (VDict (fields1 "rejecting" (VInt 7)))
           (requests, responds)
         = Return (requests ++ [MkRequest (VerTuple (1, 1)) (VInt 7)
                                  (Some "rejecting") (Some VNull)],
                   responds))
    ∧ (∀ responds,
         batch_handle service VNull
           (MkRequest (VerTuple (1, 1)) (VInt 7) (Some "rejecting") (Some VNull))
           responds []
         = (Return (responds ++ [VDict respond]), ["rejecting"])).
Proof.
  apply (handler_exception_server_error service (fields1 "rejecting" (VInt 7))
           VNull [] (VInt 7) (1, 1) "rejecting" (MkMethodEntry rejecting VNull)
           VNull (MkPyException "Rejected" (Some (VStr "not today")))
           ["rejecting"]).
  - reflexivity.
  - right; left. by exists 7.
  - reflexivity.
  - reflexivity.
  - reflexivity.
  - reflexivity.
  - left. reflexivity.
  - reflexivity.
  - exact I.
Defined.

Lemma null_id_invalid_request_witness :
  fields2 "hello" None (Some VNull) !! "id" = Some VNull
  ∧ call_py service (request2 "hello" None (Some VNull)) VNull []
    = (Return (VDict
         {[ "error" := VDict {[ "data" := details "Invalid type for the `id` field";
                                "message" := VStr "Invalid Request";
                                "code" := VInt (-32600) ]};
            "jsonrpc" := VStr "2.0";
            "id" := VNull ]}), []).
Proof.
  split; [reflexivity|].
  apply (null_id_invalid_request service (fields2 "hello" None (Some VNull))
           VNull [] [] []).
  reflexivity.
Defined.

Lemma empty_mapping_invalid_request_witness :
  isinstance_dict (VInt 5) = false ∧ isinstance_list (VInt 5) = false
  ∧ call_py service (VInt 5) VNull [] = call_py service (VDict ∅) VNull [].
Proof.
  split_and!; [reflexivity | reflexivity |].
  destruct (empty_mapping_invalid_request service VNull []) as (E1 & E2 & _).
  rewrite E1. apply E2; reflexivity.
Defined.

End Witnesses.

(** * Further properties of the service *)

(** ** The registry *)

Section Registry.
Context {World : Type}.
Implicit Types (self : JSONRPCService World) (f g : PyFunction World)
  (rdata : gmap string Value).

(** X1. [add] registers the function under the given name, or under its
    own name when none is given: that name then resolves to the function
    and its schema and is accepted by the method step; the other names
    resolve as before; registering again under the same name replaces the
    earlier entry; a new service knows no name. *)
Theorem add_registers self f name schema :
  let fname := match name with None => fn_name f | Some n => n end in
  method_data (add self f name schema) !! fname = Some (MkMethodEntry f schema)
  ∧ (∀ m, m ≠ fname →
          method_data (add self f name schema) !! m = method_data self !! m)
  ∧ (∀ rdata, rdata !! "method" = Some (VStr fname) →
              _get_method (add self f name schema) rdata = Return fname)
  ∧ (∀ g schema', add (add self g (Some fname) schema') f name schema
                   = add self f name schema)
  ∧ (∀ m, method_data (new_service (World := World)) !! m = None).
Proof.
  intros fname. unfold add. fold fname. cbn [method_data].
  split_and!.
  - apply lookup_insert_eq.
  - intros m Hm. by apply lookup_insert_ne.
  - intros rdata Hr. apply get_method_ok; [done|].
    cbn [method_data]. rewrite lookup_insert_eq. by eexists.
  - intros g schema'. f_equal. apply insert_insert_eq.
  - intros m. apply lookup_empty.
Qed.

(** X2. The method step: a registered name (a string) is returned; a
    missing field and a field that is not a string raise
    [InvalidRequestError] with their own details; a string that is not
    registered raises [MethodNotFoundError], whose data lists exactly the
    registered names, each once. *)
Theorem get_method_spec self rdata :
  (∀ m, _get_method self rdata = Return m ↔
          rdata !! "method" = Some (VStr m) ∧ is_Some (method_data self !! m))
  ∧ (rdata !! "method" = None →
     _get_method self rdata
     = Raise (InvalidRequest
                (details ("The required " +:+ dquote +:+ "method" +:+ dquote
                          +:+ " field is missing"))))
  ∧ (∀ v, rdata !! "method" = Some v → (∀ m, v ≠ VStr m) →
          _get_method self rdata
          = Raise (InvalidRequest
                     (details ("Invalid type for the " +:+ dquote +:+ "method"
                               +:+ dquote +:+ " field; must be a string"))))
  ∧ (∀ m, rdata !! "method" = Some (VStr m) → method_data self !! m = None →
          ∃ names : list string,
            _get_method self rdata
            = Raise (RpcExc (MkRpcError MethodNotFoundError
                       (VDict {[ "available_methods" := VList (VStr <$> names) ]})))
            ∧ NoDup names
            ∧ ∀ n, n ∈ names ↔ is_Some (method_data self !! n)).
Proof.
  split_and!.
  - intros m. split; [intros Hr; by apply get_method_return|].
    intros [Hm Hr]. by apply get_method_ok.
  - unfold _get_method. by intros ->.
  - unfold _get_method. intros v -> Hv. destruct v; try done. by destruct (Hv s).
  - intros m Hm Hr. exists (map_to_list (method_data self)).*1.
    split; [by apply (get_method_unknown _ _ m)|].
    split; [apply NoDup_fst_map_to_list|].
    intros n. rewrite list_elem_of_fmap. split.
    + intros ([n' e] & -> & He%elem_of_map_to_list). by eexists.
    + intros [e He]. exists (n, e). split; [done|].
      by apply elem_of_map_to_list.
Qed.

End Registry.

(** X3. The [id] step: an absent [id] gives [None]; a string, an integer
    or a float is returned as it is; a boolean, null, a list or a
    dictionary raises [InvalidRequestError]. *)
Theorem get_id_spec (rdata : gmap string Value) :
  (rdata !! "id" = None → _get_id rdata = Return VNull)
  ∧ (∀ s, rdata !! "id" = Some (VStr s) → _get_id rdata = Return (VStr s))
  ∧ (∀ n, rdata !! "id" = Some (VInt n) → _get_id rdata = Return (VInt n))
  ∧ (∀ x, rdata !! "id" = Some (VFloat x) → _get_id rdata = Return (VFloat x))
  ∧ (∀ v, rdata !! "id" = Some v →
          v = VNull ∨ (∃ b, v = VBool b) ∨ (∃ l, v = VList l) ∨ (∃ d, v = VDict d) →
          _get_id rdata
          = Raise (InvalidRequest (details "Invalid type for the `id` field"))).
Proof.
  unfold _get_id. split_and!.
  - by intros ->.
  - by intros s ->.
  - by intros n ->.
  - by intros x ->.
  - intros v -> [-> | [[b ->] | [[l ->] | [d ->]]]]; done.
Qed.

(** ** Shapes of the responses *)

Lemma dumps_shape e :
  ∃ d : gmap string Value,
    dumps e = VDict d
    ∧ d !! "code" = Some (VInt (code (err_class e)))
    ∧ d !! "message" = Some (VStr (str_message (message (err_class e))))
    ∧ d !! "data" = (if is_None (err_data e) then None else Some (err_data e)).
Proof.
  unfold dumps. destruct (is_None (err_data e)); cbn [negb];
    eexists; (split; [reflexivity|]); split_and!;
    by rewrite ?lookup_insert_eq, ?lookup_insert_ne, ?lookup_singleton_eq,
         ?lookup_singleton_ne by done.
Qed.

Lemma stamped_insert key v (d : gmap string Value) :
  key ≠ "jsonrpc" → key ≠ "version" → stamped d → stamped (<[key := v]> d).
Proof.
  intros H1 H2 [[? ?] | [? ?]]; [left | right];
    by rewrite !lookup_insert_ne by done.
Qed.

Lemma fill_ver_stamped ver (d : gmap string Value) :
  ver = (2, 0) ∨ ver = (1, 1) →
  d !! "jsonrpc" = None → d !! "version" = None →
  stamped (_fill_ver (VerTuple ver) d).
Proof.
  intros [-> | ->] Hj Hv; [rewrite fill_ver_2_0; left | rewrite fill_ver_1_1; right];
    by rewrite lookup_insert_eq, lookup_insert_ne.
Qed.

Lemma error_response_shape (err : Value) id jsonrpc :
  (∃ e : gmap string Value,
     err = VDict e ∧ is_Some (e !! "code") ∧ is_Some (e !! "message")) →
  is_response (VDict (<["error" := err]> (_fill_ver jsonrpc {["id" := id]}))).
Proof.
  intros (e & -> & Hc & Hm). eexists. split; [reflexivity|]. split.
  - rewrite lookup_insert_ne, fill_ver_lookup, lookup_singleton_eq by done.
    by eexists.
  - right. split.
    + by rewrite lookup_insert_ne, fill_ver_lookup, lookup_singleton_ne.
    + exists e. by rewrite lookup_insert_eq.
Qed.

Lemma get_err_shape e id jsonrpc :
  _get_err e id jsonrpc = VNull ∨ is_response (_get_err e id jsonrpc).
Proof.
  destruct (get_err_cases e id jsonrpc) as [-> | ->]; [by left | right].
  apply error_response_shape.
  destruct (dumps_shape e) as (d & -> & Hc & Hm & _).
  exists d. split; [done|]. split; by eexists.
Qed.

Lemma get_err_stamped e id ver (d : gmap string Value) :
  ver = (2, 0) ∨ ver = (1, 1) →
  _get_err e id (VerTuple ver) = VDict d → stamped d.
Proof.
  intros Hv.
  destruct (get_err_cases e id (VerTuple ver)) as [-> | ->]; [discriminate|].
  intros <-%VDict_inj. apply stamped_insert; [done..|].
  apply fill_ver_stamped; [done|apply lookup_singleton_ne; done..].
Qed.


Lemma result_response_shape v id jsonrpc :
  is_response (VDict (<["id" := id]> (<["result" := v]> (_fill_ver jsonrpc ∅)))).
Proof.
  eexists. split; [reflexivity|]. split.
  - rewrite lookup_insert_eq. by eexists.
  - left. split.
    + rewrite lookup_insert_ne, lookup_insert_eq by done. by eexists.
    + by rewrite !lookup_insert_ne, fill_ver_lookup, lookup_empty.
Qed.

Lemma code_inj c1 c2 : code c1 = code c2 → c1 = c2.
Proof. by destruct c1, c2. Qed.

(** X14. The error object written by [dumps] always holds the code and
    the message of the error's class, holds [data] exactly when the error
    has some, and determines the error: errors that differ in their class
    or in their data have different objects. *)
Theorem dumps_determines_error e1 e2 :
  (∃ d : gmap string Value,
     dumps e1 = VDict d
     ∧ d !! "code" = Some (VInt (code (err_class e1)))
     ∧ d !! "message" = Some (VStr (str_message (message (err_class e1))))
     ∧ (d !! "data" = None ↔ err_data e1 = VNull))
  ∧ (e1 ≠ e2 → dumps e1 ≠ dumps e2).
Proof.
  destruct (dumps_shape e1) as (d1 & E1 & Hc1 & Hm1 & Hd1).
  split.
  { exists d1. split_and!; try done. rewrite Hd1.
    destruct (err_data e1); cbn; split; congruence. }
  destruct (dumps_shape e2) as (d2 & E2 & Hc2 & Hm2 & Hd2).
  intros Hne. rewrite E1, E2. intros <-%VDict_inj. apply Hne.
  destruct e1 as [c1 x1], e2 as [c2 x2]. cbn [err_class err_data] in *.
  assert (c1 = c2) as -> by (apply code_inj; congruence).
  f_equal. rewrite Hd1 in Hd2.
  destruct x1, x2; cbn [is_None] in Hd2; congruence.
Qed.

(** ** Single requests, whatever happens to them *)

Lemma get_err_null e id jsonrpc : _get_err e id jsonrpc = VNull → id = VNull.
Proof.
  unfold _get_err. destruct id; cbn [is_None andb]; try discriminate. done.
Qed.

Lemma error_response_lookup (err : Value) id jsonrpc :
  let d := <["error" := err]> (_fill_ver jsonrpc {["id" := id]}) in
  d !! "id" = Some id ∧ d !! "result" = None ∧ d !! "error" = Some err.
Proof.
  cbn zeta. split_and!.
  - by rewrite lookup_insert_ne, fill_ver_lookup, lookup_singleton_eq.
  - by rewrite lookup_insert_ne, fill_ver_lookup, lookup_singleton_ne.
  - by rewrite lookup_insert_eq.
Qed.

Lemma error_response_stamped (err : Value) id ver :
  ver = (2, 0) ∨ ver = (1, 1) →
  stamped (<["error" := err]> (_fill_ver (VerTuple ver) {["id" := id]})).
Proof.
  intros Hv. apply stamped_insert; [done..|].
  apply fill_ver_stamped; [done|apply lookup_singleton_ne; done..].
Qed.

Section Single.
Context {World : Type} `{!JsonSchema}.
Implicit Types (self : JSONRPCService World) (rdata : gmap string Value)
  (w : World).

(** The steps of [_fill_request] in their order, with the state of the
    request dictionary that each leaves. *)
Lemma fill_request_state self rdata r request :
  _fill_request self (VDict rdata) _get_default_vals = (r, request) →
  match _get_id rdata with
  | Raise e => r = Raise e ∧ request = _get_default_vals
  | Return id =>
      req_id request = id
      ∧ match _get_jsonrpc rdata with
        | Raise e => r = Raise e
        | Return ver =>
            req_jsonrpc request = VerTuple ver
            ∧ match _get_method self rdata with
              | Raise e => r = Raise e
              | Return m =>
                  match _get_params rdata with
                  | Raise e => r = Raise e
                  | Return p => r = Return tt
                  end
              end
        end
  end.
Proof.
  unfold _fill_request. st_unfold. cbn.
  destruct (_get_id rdata); [|by intros [= <- <-]].
  destruct (_get_jsonrpc rdata); [|by intros [= <- <-]].
  destruct (_get_method self rdata); [|by intros [= <- <-]].
  destruct (_get_params rdata); by intros [= <- <-].
Qed.


End Single.

Section SingleProperties.
Context {World : Type} `{!JsonSchema} `{!JsonCodec}.
Implicit Types (self : JSONRPCService World) (rdata : gmap string Value)
  (w : World).

(** X4. The envelope is checked in the order [id], version, method,
    params, and the first failing step decides the error.  An
    [InvalidRequestError] raised after the [id] step is answered with the
    [id] that step returned, one raised by the [id] step with a null [id];
    both are stamped ["jsonrpc": "2.0"], whatever the dialect of the
    request. *)
Theorem normalization_order self rdata md w :
  let outcome := (_fill_request self (VDict rdata) _get_default_vals).1 in
  (∀ e, _get_id rdata = Raise e → outcome = Raise e)
  ∧ (∀ id e, _get_id rdata = Return id → _get_jsonrpc rdata = Raise e →
             outcome = Raise e)
  ∧ (∀ id ver e, _get_id rdata = Return id → _get_jsonrpc rdata = Return ver →
                 _get_method self rdata = Raise e → outcome = Raise e)
  ∧ (∀ id ver m e, _get_id rdata = Return id → _get_jsonrpc rdata = Return ver →
                   _get_method self rdata = Return m →
                   _get_params rdata = Raise e → outcome = Raise e)
  ∧ (∀ key v id data,
       rdata !! key = Some v → _get_id rdata = Return id →
       outcome = Raise (InvalidRequest data) →
       call_py self (VDict rdata) md w
       = (Return (VDict {[ "error" := dumps (MkRpcError InvalidRequestError data);
                           "jsonrpc" := VStr "2.0";
                           "id" := id ]}), w))
  ∧ (∀ key v data,
       rdata !! key = Some v → _get_id rdata = Raise (InvalidRequest data) →
       call_py self (VDict rdata) md w
       = (Return (VDict {[ "error" := dumps (MkRpcError InvalidRequestError data);
                           "jsonrpc" := VStr "2.0";
                           "id" := VNull ]}), w)).
Proof.
  intros outcome. subst outcome.
  destruct (_fill_request self (VDict rdata) _get_default_vals)
    as [r request] eqn:Hf.
  pose proof (fill_request_state _ _ _ _ Hf) as Hst. cbn [fst].
  split_and!.
  - intros e He. rewrite He in Hst. by destruct Hst.
  - intros id e Hi He. rewrite Hi, He in Hst. by destruct Hst.
  - intros id ver e Hi Hv He. rewrite Hi, Hv, He in Hst. by destruct Hst as (_ & _ & ?).
  - intros id ver m e Hi Hv Hm He. rewrite Hi, Hv, Hm, He in Hst.
    by destruct Hst as (_ & _ & ?).
  - intros key v id data Hk Hi ->. rewrite Hi in Hst. destruct Hst as [<- _].
    by rewrite (call_py_single_invalid _ _ _ _ _ _ _ _ Hk Hf).
  - intros key v data Hk Hi. rewrite Hi in Hst. destruct Hst as [-> ->].
    by rewrite (call_py_single_invalid _ _ _ _ _ _ _ _ Hk Hf).
Qed.

(** X5. A request with an [id] that names an unregistered method is
    answered with code -32601, its [id], the list of registered names and
    the stamp of its own dialect; its params are not looked at and no
    handler runs.  As the entry of a batch it gets the same error, but
    stamped ["jsonrpc": "2.0"] whatever its dialect. *)
Theorem unknown_method_response self rdata md w id ver name :
  rdata !! "id" = Some id → id_type_ok id →
  _get_jsonrpc rdata = Return ver →
  rdata !! "method" = Some (VStr name) →
  method_data self !! name = None →
  let error : Value :=
    VDict {[ "data" := VDict {[ "available_methods" := method_names self ]};
             "message" := VStr "Method not found";
             "code" := VInt (-32601) ]} in
  (ver = (2, 0)
   ∧ call_py self (VDict rdata) md w
     = (Return (VDict {[ "error" := error; "jsonrpc" := VStr "2.0"; "id" := id ]}), w)
   ∨ ver = (1, 1)
     ∧ call_py self (VDict rdata) md w
       = (Return (VDict {[ "error" := error; "version" := VStr "1.1"; "id" := id ]}), w))
  ∧ (∀ requests responds,
       batch_fill self (VDict rdata) (requests, responds)
       = Return (requests,
                 responds ++ [VDict {[ "error" := error; "jsonrpc" := VStr "2.0";
                                       "id" := id ]}])).
Proof.
  intros Hi Hok Hv Hm He error.
  assert (_fill_request self (VDict rdata) _get_default_vals
          = (Raise (RpcExc (MkRpcError MethodNotFoundError
                              (VDict {["available_methods" := method_names self]}))),
             MkRequest (VerTuple ver) id None None)) as Hf.
  { unfold _fill_request. st_unfold. cbn.
    by rewrite (get_id_present _ _ Hi Hok), Hv, (get_method_unknown _ _ _ Hm He). }
  pose proof (id_type_ok_not_null _ Hok) as Hn.
  split.
  - rewrite (call_py_single_raise _ _ _ _ _ _ _ _ Hi Hf).
    cbn [err_class req_id req_jsonrpc].
    rewrite bool_decide_eq_false_2 by done.
    rewrite get_err_visible by auto.
    destruct (get_jsonrpc_return _ _ Hv) as [-> | ->]; [left | right]; done.
  - intros requests responds.
    rewrite (batch_fill_error _ _ _ _ _ _ Hf). cbn [req_id].
    by rewrite get_err_visible by auto.
Qed.

(** X6. A request with an [id] whose params fail the schema of its method
    is answered with code -32602, the validator's message under
    [data.details], its [id] and the stamp of its dialect; the handler
    does not run. *)
Theorem schema_failure_response self rdata md w id ver name entry params msg :
  rdata !! "id" = Some id → id_type_ok id →
  _get_jsonrpc rdata = Return ver →
  rdata !! "method" = Some (VStr name) →
  method_data self !! name = Some entry →
  _get_params rdata = Return params →
  truthy (me_schema entry) = true →
  jsonschema_validate params (me_schema entry) = Some msg →
  let error : Value :=
    VDict {[ "code" := VInt (-32602);
             "data" := details msg;
             "message" := VStr "Invalid params" ]} in
  ver = (2, 0)
  ∧ call_py self (VDict rdata) md w
    = (Return (VDict {[ "error" := error; "jsonrpc" := VStr "2.0"; "id" := id ]}), w)
  ∨ ver = (1, 1)
    ∧ call_py self (VDict rdata) md w
      = (Return (VDict {[ "error" := error; "version" := VStr "1.1"; "id" := id ]}), w).
Proof.
  intros Hi Hok Hv Hm He Hp Ht Hs error.
  pose proof (fill_request_ok self rdata _get_default_vals id ver name params
                (get_id_present _ _ Hi Hok) Hv
                (get_method_ok _ _ _ Hm (mk_is_Some _ _ He)) Hp) as Hfill.
  rewrite (call_py_single_ok _ _ _ _ _ Hfill).
  rewrite (handle_request_invalid _ _ _ _ _ _ _ _ _ He Ht Hs).
  cbn [req_id req_jsonrpc]. unfold _invalid_params_response.
  destruct (get_jsonrpc_return _ _ Hv) as [-> | ->]; [left | right]; done.
Qed.




End SingleProperties.

(** ** Batches, entry by entry *)

Lemma get_id_return (rdata : gmap string Value) id :
  _get_id rdata = Return id → id = VNull ∨ rdata !! "id" = Some id.
Proof.
  unfold _get_id. destruct (rdata !! "id") as [v|]; [|intros [= <-]; by left].
  destruct (type_in _ _); [|discriminate]. intros [= <-]. by right.
Qed.

Section BatchEntries.
Context {World : Type} `{!JsonSchema}.
Implicit Types (self : JSONRPCService World) (w : World) (request : Request).

(** What one entry adds in the first loop: its request, or nothing (an
    unknown method called without [id]), or one error response. *)
Lemma batch_fill_entry self v :
  (∃ request rdata,
     batch_fill self v ([], []) = Return ([request], [])
     ∧ filled self request
     ∧ v = VDict rdata ∧ _get_id rdata = Return (req_id request))
  ∨ (∃ rdata,
       batch_fill self v ([], []) = Return ([], [])
       ∧ v = VDict rdata ∧ rdata !! "id" = None)
  ∨ (∃ (d : gmap string Value) id,
       batch_fill self v ([], []) = Return ([], [VDict d])
       ∧ stamped d ∧ is_response (VDict d)
       ∧ d !! "id" = Some id
       ∧ (id = VNull ∨ ∃ rdata, v = VDict rdata ∧ rdata !! "id" = Some id)
       ∧ (∀ rdata id', v = VDict rdata → rdata !! "id" = Some id' →
                       id_type_ok id' → id = id')).
Proof.
  destruct (_fill_request self v _get_default_vals) as [r request] eqn:Hf.
  destruct r as [u|e].
  { left. apply fill_request_return in Hf as Hr.
    destruct Hr as (rdata & id & ver & m & p & -> & Hi & _ & _ & _ & ->).
    eexists _, rdata. split; [by eapply (batch_fill_ok _ _ [] [])|].
    split; [by eapply fill_request_filled|]. done. }
  right.
  assert (∃ e', e = RpcExc e') as [e' ->].
  { apply fill_request_raise in Hf as [d [-> | ->]]; eauto. }
  rewrite (batch_fill_error _ _ [] [] _ _ Hf). cbn [app].
  assert (req_id request = VNull ∧ err_class e' = InvalidRequestError
            ∧ (∀ rdata id', v = VDict rdata → rdata !! "id" = Some id' →
                            ¬ id_type_ok id')
          ∨ ∃ rdata, v = VDict rdata ∧ _get_id rdata = Return (req_id request))
    as Hsrc.
  { destruct v as [| | | | | |rdata];
      try (left; revert Hf; unfold _fill_request, raise, InvalidRequest;
           intros [= <- <-]; split_and!; [done..|]; by intros ? ? [=]).
    pose proof (fill_request_state _ _ _ _ Hf) as Hst.
    destruct (_get_id rdata) as [id|e] eqn:Hi.
    - right. exists rdata. destruct Hst as [-> _]. done.
    - left. destruct Hst as [He ->]. apply Raise_inj in He. subst e.
      apply get_id_raise in Hi as Hd. destruct Hd as [d Hd].
      split; [done|]. split.
      + by apply (f_equal (λ x, match x with
                                | RpcExc e => err_class e
                                | _ => JSONRPCError
                                end)) in Hd.
      + intros rdata' id' Hv Hid Hok. apply VDict_inj in Hv. subst rdata'.
        rewrite (get_id_present _ _ Hid Hok) in Hi. discriminate Hi. }
  destruct (get_err_cases e' (req_id request) (VerTuple DEFAULT_JSONRPC))
    as [E | E]; rewrite E; cbn [is_None].
  - left. destruct Hsrc as [(_ & Hc & _) | (rdata & -> & Hi)].
    { rewrite get_err_visible in E by auto. discriminate E. }
    exists rdata. split; [done|]. split; [done|].
    apply get_err_null in E. rewrite E in Hi. by apply get_id_None.
  - right. eexists _, (req_id request). split; [done|].
    destruct (error_response_lookup (dumps e') (req_id request)
                (VerTuple DEFAULT_JSONRPC)) as (? & ? & ?).
    split_and!; try done.
    + apply error_response_stamped. by left.
    + rewrite <- E.
      destruct (get_err_shape e' (req_id request) (VerTuple DEFAULT_JSONRPC))
        as [E' | ?]; [|done]. rewrite E' in E. discriminate E.
    + destruct Hsrc as [(-> & _) | (rdata & -> & Hi)]; [by left|].
      apply get_id_return in Hi as [-> | Hi]; [by left | right; eauto].
    + intros rdata id' -> Hid Hok.
      destruct Hsrc as [(_ & _ & Hno) | (rdata' & <-%VDict_inj & Hi)].
      * by destruct (Hno rdata id' eq_refl Hid Hok).
      * rewrite (get_id_present _ _ Hid Hok) in Hi. congruence.
Qed.

(** What one request adds in the second loop, when the loop goes on. *)
Lemma batch_handle_entry self md request responds w responds' w' :
  filled self request →
  batch_handle self md request responds w = (Return responds', w') →
  (responds' = responds ∧ req_id request = VNull)
  ∨ (∃ d : gmap string Value,
       responds' = responds ++ [VDict d]
       ∧ req_id request ≠ VNull
       ∧ d !! "id" = Some (req_id request)
       ∧ stamped d ∧ is_response (VDict d)).
Proof.
  intros Hq.
  destruct (handle_request_cases self request md w Hq)
    as [(w1 & E & Hn) | [(v & w1 & E & Hn) | [(data & w1 & E)
       | [(msg & E) | (? & ? & ? & ? & w1 & E & _)]]]].
  - rewrite (batch_handle_silent _ _ _ _ _ _ E). intros [= <- _]. by left.
  - rewrite (batch_handle_answer _ _ _ _ _ _ _ E). intros [= <- _].
    right. eexists. split; [done|]. split; [done|].
    destruct Hq as (ver & id & name & params & entry & -> & Hver & _).
    cbn [req_id req_jsonrpc]. split_and!.
    + by rewrite lookup_insert_eq.
    + apply stamped_insert; [done..|]. apply stamped_insert; [done..|].
      by apply fill_ver_stamped.
    + apply result_response_shape.
  - rewrite (batch_handle_error _ _ _ _ _ _ _ E).
    destruct Hq as (ver & id & name & params & entry & -> & Hver & _).
    cbn [req_id req_jsonrpc].
    destruct (get_err_cases (MkRpcError ServerError data) id (VerTuple ver))
      as [E' | E']; rewrite E'; cbn [is_None]; intros [= <- _].
    + left. split; [done|]. by eapply get_err_null.
    + right. eexists. split; [done|].
      destruct (error_response_lookup (dumps (MkRpcError ServerError data)) id
                  (VerTuple ver)) as (? & ? & ?).
      split_and!; try done.
      * intros ->. rewrite get_err_suppressed in E' by done. discriminate E'.
      * by apply error_response_stamped.
      * rewrite <- E'.
        destruct (get_err_shape (MkRpcError ServerError data) id (VerTuple ver))
          as [E'' | ?]; [|done]. rewrite E'' in E'. discriminate E'.
  - rewrite (batch_handle_invalid _ _ _ _ _ _ _ E). discriminate.
  - rewrite (batch_handle_type_error _ _ _ _ _ _ E). discriminate.
Qed.

End BatchEntries.

Lemma carries_id_cons v (l : list Value) id :
  carries_id l id → carries_id (v :: l) id.
Proof. intros (rdata & Hin & Hid). exists rdata. split; [by right | done]. Qed.

Section BatchLoops.
Context {World : Type} `{!JsonSchema}.
Implicit Types (self : JSONRPCService World) (w : World) (request : Request).

(** The first loop over a whole batch. *)
Lemma batch_fill_loop_inv self l rq rs :
  batch_fill_loop self l ([], []) = Return (rq, rs) →
  Forall (filled self) rq
  ∧ (length rq + length rs ≤ length l)%nat
  ∧ Forall (λ q, req_id q = VNull ∨ carries_id l (req_id q)) rq
  ∧ Forall (λ r, ∃ (d : gmap string Value) id,
                   r = VDict d ∧ stamped d ∧ is_response r
                   ∧ d !! "id" = Some id
                   ∧ (id = VNull ∨ carries_id l id)) rs
  ∧ (∀ (rdata : gmap string Value) id,
       VDict rdata ∈ l → rdata !! "id" = Some id → id_type_ok id →
       (∃ q, q ∈ rq ∧ req_id q = id)
       ∨ (∃ d : gmap string Value, VDict d ∈ rs ∧ d !! "id" = Some id))
  ∧ (rs = [] → Forall (λ q, req_id q = VNull) rq →
     Forall (λ v, ∃ rdata : gmap string Value,
                    v = VDict rdata ∧ rdata !! "id" = None) l).
Proof.
  revert rq rs. induction l as [|v l IH]; intros rq rs; cbn [batch_fill_loop].
  { intros [= <- <-]. split_and!; try done.
    intros rdata id Hin. by apply elem_of_nil in Hin. }
  unfold mbind, Result_bind.
  destruct (batch_fill_loop_returns self l [] [] (Forall_nil_2 _))
    as (rq2 & rs2 & Hl & _).
  destruct (IH _ _ Hl) as (Hq2 & Hlen2 & Hid2 & Hrs2 & Hc2 & Hn2).
  assert (Forall (λ q, req_id q = VNull ∨ carries_id (v :: l) (req_id q)) rq2)
    as Hid2'.
  { eapply Forall_impl; [exact Hid2|]. intros q [? | ?]; auto using carries_id_cons. }
  assert (Forall (λ r, ∃ (d : gmap string Value) id,
                         r = VDict d ∧ stamped d ∧ is_response r
                         ∧ d !! "id" = Some id
                         ∧ (id = VNull ∨ carries_id (v :: l) id)) rs2) as Hrs2'.
  { eapply Forall_impl; [exact Hrs2|].
    intros r (d & id & ? & ? & ? & ? & [? | ?]); exists d, id;
      auto 10 using carries_id_cons. }
  destruct (batch_fill_entry self v)
    as [(q & rdata & E & Hq & -> & Hi)
       | [(rdata & E & -> & Hi) | (d & id & E & Hst & Hr & Hid & Hsrc & Hown)]];
    rewrite E, (batch_fill_loop_acc _ _ _ _ _ _ Hl); intros [= <- <-].
  - cbn [app length]. split_and!.
    + by constructor.
    + lia.
    + constructor; [|done].
      apply get_id_return in Hi as [-> | Hi]; [by left | right].
      exists rdata. split; [by left | done].
    + done.
    + intros rdata' id' Hin Hid' Hok.
      apply elem_of_cons in Hin as [Heq | Hin].
      * apply VDict_inj in Heq. subst rdata'. left. exists q. split; [by left|].
        rewrite (get_id_present _ _ Hid' Hok) in Hi. congruence.
      * destruct (Hc2 _ _ Hin Hid' Hok) as [(q' & ? & ?) | ?]; [left | by right].
        exists q'. split; [by right | done].
    + intros Hrs Hall. apply Forall_cons in Hall as [Hq0 Hall].
      constructor; [|by apply Hn2].
      exists rdata. split; [done|]. rewrite Hq0 in Hi. by apply get_id_None.
  - cbn [app]. split_and!; try done.
    + cbn [length]. lia.
    + intros rdata' id' Hin Hid' Hok.
      apply elem_of_cons in Hin as [Heq | Hin]; [|by apply (Hc2 rdata' id')].
      apply VDict_inj in Heq. subst rdata'. congruence.
    + intros Hrs Hall. constructor; [by exists rdata | by apply Hn2].
  - cbn [app length]. split_and!; try done.
    + lia.
    + constructor; [|done]. exists d, id. split_and!; try done.
      destruct Hsrc as [-> | (rdata & -> & Hi)]; [by left | right].
      exists rdata. split; [by left | done].
    + intros rdata' id' Hin Hid' Hok.
      apply elem_of_cons in Hin as [Heq | Hin].
      * right. exists d. split; [by left|].
        by rewrite (Hown rdata' id' (eq_sym Heq) Hid' Hok) in Hid.
      * destruct (Hc2 _ _ Hin Hid' Hok) as [? | (d' & ? & ?)]; [by left | right].
        exists d'. split; [by right | done].
Qed.

(** The second loop over the requests, when it runs to its end. *)
Lemma batch_handle_loop_inv self md requests responds w responds' w' :
  Forall (filled self) requests →
  batch_handle_loop self md requests responds w = (Return responds', w') →
  ∃ added,
    responds' = responds ++ added
    ∧ (length added ≤ length requests)%nat
    ∧ Forall (λ r, ∃ (d : gmap string Value) q,
                     r = VDict d ∧ q ∈ requests ∧ req_id q ≠ VNull
                     ∧ d !! "id" = Some (req_id q)
                     ∧ stamped d ∧ is_response r) added
    ∧ (∀ q, q ∈ requests → req_id q ≠ VNull →
            ∃ d : gmap string Value, VDict d ∈ added ∧ d !! "id" = Some (req_id q))
    ∧ (added = [] → Forall (λ q, req_id q = VNull) requests).
Proof.
  intros Hq. revert responds w.
  induction Hq as [|q requests Hq0 Hq IH]; intros responds w;
    cbn [batch_handle_loop].
  { intros [= <- <-]. exists []. rewrite app_nil_r. split_and!; try done.
    intros q Hin. by apply elem_of_nil in Hin. }
  st_unfold. cbn beta.
  destruct (batch_handle self md q responds w) as [[rs1|e] w1] eqn:E;
    [|discriminate].
  intros Hl. destruct (IH _ _ Hl) as (added & -> & Hlen & Hall & Hc & Hn).
  assert (Forall (λ r, ∃ (d : gmap string Value) q',
                         r = VDict d ∧ q' ∈ q :: requests ∧ req_id q' ≠ VNull
                         ∧ d !! "id" = Some (req_id q')
                         ∧ stamped d ∧ is_response r) added) as Hall'.
  { eapply Forall_impl; [exact Hall|].
    intros r (d & q' & ? & ? & ?). exists d, q'. split; [done|].
    split; [by right | done]. }
  destruct (batch_handle_entry _ _ _ _ _ _ _ Hq0 E)
    as [[-> Hid] | (d & -> & Hid & Hd & Hst & Hr)].
  - exists added. split_and!; try done.
    + cbn [length]. lia.
    + intros q' [-> | Hin]%elem_of_cons Hne; [done | by apply Hc].
    + intros Ha. constructor; [done | by apply Hn].
  - exists (VDict d :: added). rewrite <- app_assoc. split_and!; try done.
    + cbn [length]. lia.
    + constructor; [|done]. exists d, q. split; [done|].
      split; [by left | done].
    + intros q' [-> | Hin]%elem_of_cons Hne.
      * exists d. split; [by left | done].
      * destruct (Hc _ Hin Hne) as (d' & ? & ?). exists d'.
        split; [by right | done].
Qed.

(** A batch answered by a list or by nothing ran both loops to their
    end. *)
Lemma call_py_batch_list self l md w out w' :
  call_py self (VList l) md w = (Return (VList out), w') →
  ∃ rq rs,
    batch_fill_loop self l ([], []) = Return (rq, rs)
    ∧ batch_handle_loop self md rq rs w = (Return out, w')
    ∧ out ≠ [].
Proof.
  destruct l as [|v l].
  { unfold call_py, call_py_body, try_except, raise. cbn. intros E.
    apply (f_equal (λ x, match x.1 with
                         | Return (VList _) => true
                         | _ => false
                         end)) in E. discriminate E. }
  destruct (batch_fill_loop_returns self (v :: l) [] [] (Forall_nil_2 _))
    as (rq & rs & Hf & Hq).
  destruct (batch_handle_loop_cases self md rq rs w Hq)
    as [(rs' & w1 & Hh) | [(msg & w1 & Hh) | (w1 & Hh & _)]].
  - rewrite (call_py_batch_completed _ _ _ _ _ _ _ _ _ Hf Hh).
    destruct rs' as [|r rs']; [discriminate|].
    intros [= <- <-]. by exists rq, rs.
  - rewrite (call_py_batch_aborted _ _ _ _ _ _ _ _ _ Hf Hh). intros E.
    apply (f_equal (λ x, match x.1 with
                         | Return (VList _) => true
                         | _ => false
                         end)) in E. discriminate E.
  - rewrite (call_py_batch_type_error _ _ _ _ _ _ _ _ Hf Hh). discriminate.
Qed.

Lemma call_py_batch_none self l md w w' :
  call_py self (VList l) md w = (Return VNull, w') →
  ∃ rq rs,
    batch_fill_loop self l ([], []) = Return (rq, rs)
    ∧ batch_handle_loop self md rq rs w = (Return [], w').
Proof.
  destruct l as [|v l].
  { unfold call_py, call_py_body, try_except, raise. cbn. intros E.
    apply (f_equal (λ x, match x.1 with
                         | Return VNull => true
                         | _ => false
                         end)) in E. discriminate E. }
  destruct (batch_fill_loop_returns self (v :: l) [] [] (Forall_nil_2 _))
    as (rq & rs & Hf & Hq).
  destruct (batch_handle_loop_cases self md rq rs w Hq)
    as [(rs' & w1 & Hh) | [(msg & w1 & Hh) | (w1 & Hh & _)]].
  - rewrite (call_py_batch_completed _ _ _ _ _ _ _ _ _ Hf Hh).
    destruct rs' as [|r rs']; [|discriminate].
    intros [= <-]. by exists rq, rs.
  - rewrite (call_py_batch_aborted _ _ _ _ _ _ _ _ _ Hf Hh). intros E.
    apply (f_equal (λ x, match x.1 with
                         | Return VNull => true
                         | _ => false
                         end)) in E. discriminate E.
  - rewrite (call_py_batch_type_error _ _ _ _ _ _ _ _ Hf Hh). discriminate.
Qed.

End BatchLoops.

Section BatchProperties.
Context {World : Type} `{!JsonSchema} `{!JsonCodec}.
Implicit Types (self : JSONRPCService World) (w : World) (request : Request).

Lemma batch_answers_complete self l md w rq rs out w' :
  batch_fill_loop self l ([], []) = Return (rq, rs) →
  batch_handle_loop self md rq rs w = (Return out, w') →
  ∀ (rdata : gmap string Value) id,
    VDict rdata ∈ l → rdata !! "id" = Some id → id_type_ok id →
    ∃ d : gmap string Value, VDict d ∈ out ∧ d !! "id" = Some id.
Proof.
  intros Hf Hh rdata id Hin Hid Hok.
  destruct (batch_fill_loop_inv _ _ _ _ Hf) as (Hq & _ & _ & _ & Hc & _).
  destruct (batch_handle_loop_inv _ _ _ _ _ _ _ Hq Hh)
    as (added & -> & _ & _ & Hc' & _).
  destruct (Hc _ _ Hin Hid Hok) as [(q & Hq0 & <-) | (d & Hd & Hdi)].
  - destruct (Hc' q Hq0 (id_type_ok_not_null _ Hok)) as (d & Hd & Hdi).
    exists d. split; [|done]. apply elem_of_app. by right.
  - exists d. split; [|done]. apply elem_of_app. by left.
Qed.





(** X11. When a batch is answered by a list, the list is not empty, has
    no more responses than the batch has entries, and each of its elements
    is a response: a dictionary with an [id], either a result or an error
    but not both, and the stamp of one dialect. *)
Theorem batch_output_well_formed self l md w out w' :
  call_py self (VList l) md w = (Return (VList out), w') →
  out ≠ []
  ∧ (length out ≤ length l)%nat
  ∧ Forall (λ r, is_response r
                 ∧ ∃ d : gmap string Value, r = VDict d ∧ stamped d) out.
Proof.
  intros (rq & rs & Hf & Hh & Hne)%call_py_batch_list.
  destruct (batch_fill_loop_inv _ _ _ _ Hf) as (Hq & Hlen & _ & Hrs & _ & _).
  destruct (batch_handle_loop_inv _ _ _ _ _ _ _ Hq Hh)
    as (added & -> & Hlen' & Hadd & _ & _).
  split_and!; [done | rewrite length_app; lia |].
  apply Forall_app. split.
  - eapply Forall_impl; [exact Hrs|].
    intros r (d & id & -> & ? & ? & _). split; [done | by exists d].
  - eapply Forall_impl; [exact Hadd|].
    intros r (d & q & -> & _ & _ & _ & ? & ?). split; [done | by exists d].
Qed.

(** X12. When a batch is answered by a list, the [id] of every response
    is null or the [id] of an entry of the batch, and every entry with an
    [id] of an accepted type has a response with that [id] in the list. *)
Theorem batch_response_ids self l md w out w' :
  call_py self (VList l) md w = (Return (VList out), w') →
  Forall (λ r, ∃ (d : gmap string Value) id,
                 r = VDict d ∧ d !! "id" = Some id
                 ∧ (id = VNull ∨ carries_id l id)) out
  ∧ (∀ (rdata : gmap string Value) id,
       VDict rdata ∈ l → rdata !! "id" = Some id → id_type_ok id →
       ∃ d : gmap string Value, VDict d ∈ out ∧ d !! "id" = Some id).
Proof.
  intros (rq & rs & Hf & Hh & Hne)%call_py_batch_list.
  split; [|by eapply batch_answers_complete].
  destruct (batch_fill_loop_inv _ _ _ _ Hf) as (Hq & _ & Hids & Hrs & _ & _).
  destruct (batch_handle_loop_inv _ _ _ _ _ _ _ Hq Hh)
    as (added & -> & _ & Hadd & _ & _).
  apply Forall_app. split.
  - eapply Forall_impl; [exact Hrs|].
    intros r (d & id & -> & _ & _ & ? & ?). by exists d, id.
  - eapply Forall_impl; [exact Hadd|].
    intros r (d & q & -> & Hin & Hn & Hd & _). exists d, (req_id q).
    split; [done|]. split; [done|].
    rewrite Forall_forall in Hids. by apply Hids.
Qed.


(** X15. A batch is answered by nothing only when every one of its
    entries is a dictionary without [id]. *)
Theorem silent_batch_only_notifications self l md w w' :
  call_py self (VList l) md w = (Return VNull, w') →
  Forall (λ v, ∃ rdata : gmap string Value,
                 v = VDict rdata ∧ rdata !! "id" = None) l.
Proof.
  intros (rq & rs & Hf & Hh)%call_py_batch_none.
  destruct (batch_fill_loop_inv _ _ _ _ Hf) as (Hq & _ & _ & _ & _ & Hn).
  destruct (batch_handle_loop_inv _ _ _ _ _ _ _ Hq Hh)
    as (added & Happ & _ & _ & _ & Hn').
  symmetry in Happ. apply app_eq_nil in Happ as [-> ->].
  apply Hn; [done|]. by apply Hn'.
Qed.

End BatchProperties.

(** ** The further properties at concrete requests *)

Section FurtherWitnesses.
Import Example.

Lemma add_registers_witness :
  method_data (add plain_service noop (Some "configure") object_schema) !! "configure"
  = Some (MkMethodEntry noop object_schema)
  ∧ method_data (add plain_service noop (Some "configure") object_schema) !! "hello"
    = method_data plain_service !! "hello"
  ∧ _get_method (add plain_service noop (Some "configure") object_schema)
      (fields2 "configure" None None)
    = Return "configure".
Proof.
  destruct (add_registers plain_service noop (Some "configure") object_schema)
    as (H1 & H2 & H3 & _).
  split_and!.
  - exact H1.
  - apply H2. discriminate.
  - apply H3. reflexivity.
Defined.

Lemma get_method_spec_witness :
  _get_method service {[ "jsonrpc" := VStr "2.0"; "method" := VInt 1 ]}
  = Raise (InvalidRequest
             (details ("Invalid type for the " +:+ dquote +:+ "method"
                       +:+ dquote +:+ " field; must be a string")))
  ∧ (_get_method service (fields2 "hello" None None) = Return "hello").
Proof.
  destruct (get_method_spec service
              {[ "jsonrpc" := VStr "2.0"; "method" := VInt 1 ]})
    as (_ & _ & H3 & _).
  destruct (get_method_spec service (fields2 "hello" None None)) as (H1 & _).
  split.
  - apply (H3 (VInt 1)); [reflexivity | discriminate].
  - apply H1. split; [reflexivity | by eexists].
Defined.

Lemma get_id_spec_witness :
  _get_id (fields2 "hello" None (Some (VBool true)))
  = Raise (InvalidRequest (details "Invalid type for the `id` field"))
  ∧ _get_id (fields2 "hello" None (Some (VStr "a"))) = Return (VStr "a").
Proof.
  destruct (get_id_spec (fields2 "hello" None (Some (VBool true))))
    as (_ & _ & _ & _ & H5).
  destruct (get_id_spec (fields2 "hello" None (Some (VStr "a"))))
    as (_ & H2 & _).
  split.
  - apply (H5 (VBool true)); [reflexivity|]. right; left. by exists true.
  - apply H2. reflexivity.
Defined.

Lemma normalization_order_witness :
  call_py service
    (VDict {[ "version" := VStr "1.1"; "method" := VInt 5; "params" := VInt 6;
              "id" := VInt 7 ]}) VNull []
  = (Return (VDict
       {[ "error" := dumps (MkRpcError InvalidRequestError
                              (details ("Invalid type for the " +:+ dquote
                                        +:+ "method" +:+ dquote
                                        +:+ " field; must be a string")));
          "jsonrpc" := VStr "2.0";
          "id" := VInt 7 ]}), []).
Proof.
  destruct (normalization_order service
              {[ "version" := VStr "1.1"; "method" := VInt 5; "params" := VInt 6;
                 "id" := VInt 7 ]} VNull []) as (_ & _ & _ & _ & H5 & _).
  apply (H5 "id" (VInt 7)); reflexivity.
Defined.

Lemma unknown_method_response_witness :
  call_py service (VDict (fields1 "nope" (VInt 7))) VNull []
  = (Return (VDict
       {[ "error" := VDict {[ "data" := VDict {[ "available_methods" := method_names service ]};
                              "message" := VStr "Method not found";
                              "code" := VInt (-32601) ]};
          "version" := VStr "1.1";
          "id" := VInt 7 ]}), [])
  ∧ batch_fill service (VDict (fields1 "nope" (VInt 7))) ([], [])
    = Return ([],
              [VDict
                 {[ "error" := VDict {[ "data" := VDict {[ "available_methods" := method_names service ]};
                                        "message" := VStr "Method not found";
                                        "code" := VInt (-32601) ]};
                    "jsonrpc" := VStr "2.0";
                    "id" := VInt 7 ]}]).
Proof.
  destruct (unknown_method_response service (fields1 "nope" (VInt 7)) VNull []
              (VInt 7) (1, 1) "nope") as [[[H _] | [_ H]] Hb].
  - reflexivity.
  - right; left. by exists 7.
  - reflexivity.
  - reflexivity.
  - reflexivity.
  - discriminate H.
  - split; [exact H | exact (Hb [] [])].
Defined.

Lemma schema_failure_response_witness :
  call_py service (request2 "configure" (Some (VList [VInt 3])) (Some (VInt 2)))
    VNull []
  = (Return (VDict
       {[ "error" := VDict {[ "code" := VInt (-32602);
                              "data" := details "[3] is not of type 'object'";
                              "message" := VStr "Invalid params" ]};
          "jsonrpc" := VStr "2.0";
          "id" := VInt 2 ]}), []).
Proof.
  destruct (schema_failure_response service
              (fields2 "configure" (Some (VList [VInt 3])) (Some (VInt 2)))
              VNull [] (VInt 2) (2, 0) "configure"
              (MkMethodEntry noop object_schema) (VList [VInt 3])
              "[3] is not of type 'object'") as [[_ H] | [H _]].
  - reflexivity.
  - right; left. by exists 2.
  - reflexivity.
  - reflexivity.
  - reflexivity.
  - reflexivity.
  - reflexivity.
  - reflexivity.
  - exact H.
  - discriminate H.
Defined.




Lemma batch_output_well_formed_witness :
  let out := [VDict {[ "id" := VInt 1; "result" := VStr "Hello world!";
                       "jsonrpc" := VStr "2.0" ]}] in
  out ≠ []
  ∧ (length out ≤ 2)%nat
  ∧ Forall (λ r, is_response r
                 ∧ ∃ d : gmap string Value, r = VDict d ∧ stamped d) out.
Proof.
  apply (batch_output_well_formed service
           [request2 "hello" None (Some (VInt 1)); request2 "noop" None None]
           VNull [] _ ["hello"; "noop"]).
  vm_compute. reflexivity.
Defined.

Lemma batch_response_ids_witness :
  ∃ d : gmap string Value,
    VDict d ∈ [VDict {[ "id" := VInt 1; "result" := VStr "Hello world!";
                        "jsonrpc" := VStr "2.0" ]}]
    ∧ d !! "id" = Some (VInt 1).
Proof.
  destruct (batch_response_ids service
              [request2 "hello" None (Some (VInt 1)); request2 "noop" None None]
              VNull []
              [VDict {[ "id" := VInt 1; "result" := VStr "Hello world!";
                        "jsonrpc" := VStr "2.0" ]}] ["hello"; "noop"])
    as [_ H].
  - vm_compute. reflexivity.
  - apply (H (fields2 "hello" None (Some (VInt 1))) (VInt 1)).
    + left.
    + reflexivity.
    + right; left. by exists 1.
Defined.





Lemma dumps_determines_error_witness :
  dumps (MkRpcError InvalidRequestError VNull)
  ≠ dumps (MkRpcError MethodNotFoundError VNull).
Proof.
  apply (proj2 (dumps_determines_error
                  (MkRpcError InvalidRequestError VNull)
                  (MkRpcError MethodNotFoundError VNull))).
  discriminate.
Defined.

Lemma silent_batch_only_notifications_witness :
  Forall (λ v, ∃ rdata : gmap string Value,
                 v = VDict rdata ∧ rdata !! "id" = None)
    [request2 "hello" None None; request2 "nope" None None].
Proof.
  apply (silent_batch_only_notifications service _ VNull [] ["hello"]).
  vm_compute. reflexivity.
Defined.

End FurtherWitnesses.
